(** * Retention and funnel calculators of [pages/rentention/app.py]

    A shallow embedding of the three computations of the dashboard page:
    [get_unique_user_ids], [calculate_retention] and [search_funnel] /
    [calculate_funnel], together with the small parts of the Python
    libraries they lean on (aware [datetime] arithmetic, [strftime], true
    division, index-aligned column assignment of pandas).

    Conventions.
    - Python [int] is [Z]; a Python [set] of user ids is a [gset Z].
    - An exception is a value of [exn]; code that may raise returns a
      [result].
    - [datetime.now(timezone)] reads a clock.  The clock is a sequence of
      readings [clock W : nat -> datetime]; a computation threads the
      number of readings made so far.
    - [client.search] is the external query service: a function of the
      index pattern and the request body.  [st.cache_data] memoises a
      function per argument tuple for an hour.  [get_unique_user_ids] is a
      function of its arguments, so the memoised and the plain function
      return the same sets; [search_funnel] reads the clock, and what is
      embedded is a call that the cache does not answer. *)

From Stdlib Require Import ZArith QArith Lia.
From stdpp Require Import base list gmap strings.

Local Open Scope string_scope.
Local Open Scope list_scope.
Local Open Scope Z_scope.

(** ** Exceptions and results *)

Inductive exn : Type :=
| OverflowError
| ZeroDivisionError
| AttributeError.

Inductive result (A : Type) : Type :=
| Ok (a : A)
| Raise (e : exn).

Arguments Ok {A} a.
Arguments Raise {A} e.

Definition bind {A B : Type} (r : result A) (k : A -> result B) : result B :=
  match r with
  | Ok a => k a
  | Raise e => Raise e
  end.

Definition value_of {A B : Type} (r : result (A * B)) : result A :=
  match r with Ok (a, _) => Ok a | Raise e => Raise e end.

#[global] Instance result_fmap : FMap result :=
  fun A B f r => match r with Ok a => Ok (f a) | Raise e => Raise e end.

Declare Scope result_scope.
Delimit Scope result_scope with result.
Notation "x <- c1 ;; c2" := (bind c1 (fun x => c2))
  (at level 100, c1 at next level, right associativity) : result_scope.
Local Open Scope result_scope.

(** ** Dates

    An aware [datetime] in the zone of the page ([Asia/Shanghai], whose
    offset is +08:00) is its wall-clock reading: the proleptic Gregorian
    ordinal of its calendar day ([date.toordinal()], 1 for 0001-01-01) and
    the microseconds elapsed since local midnight.  Adding a [timedelta] to
    an aware [datetime] moves the wall clock and keeps the zone. *)

Record datetime : Type := { ordinal : Z; micros : Z }.

Record timedelta_t : Type := { days : Z }.

(** [date.min.toordinal()] and [date.max.toordinal()]. *)
Definition MINORDINAL : Z := 1.
Definition MAXORDINAL : Z := 3652059.

(** [timedelta(days=d)]: the magnitude is limited. *)
Definition timedelta (d : Z) : result timedelta_t :=
  if Z.abs d <=? 999999999 then Ok {| days := d |} else Raise OverflowError.

(** [dt + td]: the result has to be a date between 0001-01-01 and
    9999-12-31. *)
Definition dt_add (dt : datetime) (td : timedelta_t) : result datetime :=
  let o := ordinal dt + days td in
  if (MINORDINAL <=? o) && (o <=? MAXORDINAL)
  then Ok {| ordinal := o; micros := micros dt |}
  else Raise OverflowError.

(** [dt - td] *)
Definition dt_sub (dt : datetime) (td : timedelta_t) : result datetime :=
  dt_add dt {| days := - days td |}.

(** *** Calendar fields of an ordinal (the algorithm of CPython's
    [ord_to_ymd]) *)

Definition DI400Y : Z := 146097.
Definition DI100Y : Z := 36524.
Definition DI4Y : Z := 1461.

Definition is_leap (y : Z) : bool :=
  (y mod 4 =? 0) && (negb (y mod 100 =? 0) || (y mod 400 =? 0)).

(** [_days_before_month[m]] *)
Definition days_before_month_tbl (m : Z) : Z :=
  match m with
  | 1 => 0 | 2 => 31 | 3 => 59 | 4 => 90 | 5 => 120 | 6 => 151
  | 7 => 181 | 8 => 212 | 9 => 243 | 10 => 273 | 11 => 304 | 12 => 334
  | _ => 0
  end.

(** [_days_in_month[m]] *)
Definition days_in_month_tbl (m : Z) : Z :=
  match m with
  | 1 => 31 | 2 => 28 | 3 => 31 | 4 => 30 | 5 => 31 | 6 => 30
  | 7 => 31 | 8 => 31 | 9 => 30 | 10 => 31 | 11 => 30 | 12 => 31
  | _ => 0
  end.

Definition days_in_month (y m : Z) : Z :=
  if (m =? 2) && is_leap y then 29 else days_in_month_tbl m.

Definition days_before_year (y : Z) : Z :=
  let y1 := y - 1 in y1 * 365 + y1 / 4 - y1 / 100 + y1 / 400.

Definition days_before_month (y m : Z) : Z :=
  days_before_month_tbl m + (if (2 <? m) && is_leap y then 1 else 0).

Definition ymd_to_ord (y m d : Z) : Z :=
  days_before_year y + days_before_month y m + d.

Definition ord_to_ymd (o : Z) : Z * Z * Z :=
  let o := o - 1 in
  let n400 := o / DI400Y in
  let n := o mod DI400Y in
  let n100 := n / DI100Y in
  let n := n mod DI100Y in
  let n4 := n / DI4Y in
  let n := n mod DI4Y in
  let n1 := n / 365 in
  let n := n mod 365 in
  let year := n400 * 400 + 1 + n100 * 100 + n4 * 4 + n1 in
  if (n1 =? 4) || (n100 =? 4) then (year - 1, 12, 31)
  else
    let leapyear := (n1 =? 3) && (negb (n4 =? 24) || (n100 =? 3)) in
    let month := (n + 50) / 32 in
    let preceding :=
      days_before_month_tbl month + (if (2 <? month) && leapyear then 1 else 0) in
    if n <? preceding
    then (year, month - 1, n - (preceding - days_in_month year (month - 1)) + 1)
    else (year, month, n - preceding + 1).

(** *** Formatting *)

Definition digit (z : Z) : Ascii.ascii := Ascii.ascii_of_nat (48 + Z.to_nat (z mod 10)).

(** Decimal digits of [z], [w] of them, zero padded ([%m], [%d]). *)
Fixpoint digits (w : nat) (z : Z) : string :=
  match w with
  | O => ""
  | S w' => digits w' (z / 10) +:+ String (digit z) ""
  end.

(** Decimal digits of a year without padding, as the C library prints
    [%Y]; from year 1000 on these are four digits. *)
Definition year_digits (y : Z) : string :=
  if y <? 10 then digits 1 y
  else if y <? 100 then digits 2 y
  else if y <? 1000 then digits 3 y
  else digits 4 y.

(** [date.strftime("%Y-%m-%d")] of the day with ordinal [o]. *)
Definition strftime_ord (o : Z) : string :=
  let '(y, m, d) := ord_to_ymd o in
  year_digits y +:+ "-" +:+ digits 2 m +:+ "-" +:+ digits 2 d.

(** [dt.strftime("%Y-%m-%d")] *)
Definition strftime (dt : datetime) : string := strftime_ord (ordinal dt).

(** ** Reading a date back

    The inverse of [strftime], to say which day a string of the [Date]
    column denotes. *)

(** [y]-[m]-[d] is a date. *)
Definition valid_ymd (y m d : Z) : Prop :=
  1 <= y <= 9999 /\ 1 <= m <= 12 /\ 1 <= d <= days_in_month y m.

(** The value of a decimal digit. *)
Definition digit_value (c : Ascii.ascii) : Z := Z.of_nat (Ascii.nat_of_ascii c) - 48.

(** The number a string of digits denotes, after the digits of [acc]. *)
Fixpoint number (s : string) (acc : Z) : Z :=
  match s with
  | "" => acc
  | String c s' => number s' (acc * 10 + digit_value c)
  end.

(** The calendar fields a string [Y-MM-DD] denotes, the year being all but
    the last six characters. *)
Definition date_of_string (s : string) : Z * Z * Z :=
  let k := (String.length s - 6)%nat in
  (number (String.substring 0 k s) 0,
   number (String.substring (k + 1) 2 s) 0,
   number (String.substring (k + 4) 2 s) 0).

(** The ordinal of the day a string [Y-MM-DD] denotes. *)
Definition ordinal_of_string (s : string) : Z :=
  let '(y, m, d) := date_of_string s in ymd_to_ord y m d.

(** ** The query service

    A request body is the JSON document the code builds; [datetime] values
    occur in it as such (the client serialises them). *)

#[local] Unset Elimination Schemes.
Inductive json : Type :=
| JStr (s : string)
| JInt (z : Z)
| JDate (d : datetime)
| JObj (fields : list (string * json))
| JList (items : list json).
#[local] Set Elimination Schemes.

Inductive step : Type :=
| Key (k : string)
| Idx (n : nat).

Fixpoint assoc (k : string) (fields : list (string * json)) : option json :=
  match fields with
  | [] => None
  | (k', v) :: rest => if String.eqb k k' then Some v else assoc k rest
  end.

(** [body[p1][p2]...] *)
Fixpoint jget (p : list step) (j : json) : option json :=
  match p with
  | [] => Some j
  | Key k :: p' =>
      match j with
      | JObj fields =>
          match assoc k fields with Some v => jget p' v | None => None end
      | _ => None
      end
  | Idx n :: p' =>
      match j with
      | JList items =>
          match items !! n with Some v => jget p' v | None => None end
      | _ => None
      end
  end.

(** One bucket of a terms aggregation. *)
Record term_bucket : Type := { key : Z; doc_count : Z }.

(** One bucket of the [by_day] date histogram: its [key_as_string] and the
    [value] of [unique_visitorId] under each of the three filters. *)
Record day_bucket : Type := {
  key_as_string : string;
  userId_all : Z;
  userId_not_0 : Z;
  new_sign_up : Z
}.

(** [response["aggregations"]]: the buckets of [unique_userIds] and of
    [by_day]. *)
Record aggregations : Type := {
  unique_userIds : list term_bucket;
  by_day : list day_bucket
}.

(** The world the page runs in. *)
Record World : Type := {
  (** successive readings of [datetime.now(timezone)] *)
  clock : nat -> datetime;
  (** every reading is a [datetime]: its day lies between [date.min] and
      [date.max] *)
  clock_valid : forall n, MINORDINAL <= ordinal (clock n) <= MAXORDINAL;
  (** [client.search(index=..., body=...)["aggregations"]] *)
  client_search : string -> json -> aggregations;
  (** [pd.to_datetime] on one [key_as_string] (the service writes the
      start of the bucket in ISO 8601), as nanoseconds since the epoch *)
  to_datetime : string -> Z
}.

(** ** [get_unique_user_ids] *)

Definition unique_user_ids_body (date message_name : string) : json :=
  JObj [
    ("query", JObj [
      ("bool", JObj [
        ("must", JList [
          JObj [("range", JObj [
            ("@timestamp", JObj [
              ("gte", JStr (date +:+ "T00:00:00"));
              ("lt", JStr (date +:+ "T23:59:59"));
              ("time_zone", JStr "+08:00")])])];
          JObj [("term", JObj [("message.name.keyword", JStr message_name)])]
        ])])]);
    ("size", JInt 0);
    ("aggs", JObj [
      ("unique_userIds", JObj [
        ("terms", JObj [
          ("field", JStr "message.userId");
          ("size", JInt 10000)])])])
  ].

Definition get_unique_user_ids (W : World) (date message_name : string) : gset Z :=
  let response :=
    unique_userIds
      (client_search W "monitor-prod-20*" (unique_user_ids_body date message_name)) in
  list_to_set (key <$> response).

(** ** [calculate_retention] *)

(** [len(s)] *)
Definition len (s : gset Z) : Z := Z.of_nat (size s).

(** Truth value of a set: it is not empty. *)
Definition truthy (s : gset Z) : bool := negb (Nat.eqb (size s) 0).

(** [a / b] on integers.  The quotient is kept as the rational it is;
    Python returns the binary64 number nearest to it. *)
Definition truediv (a b : Z) : result Q :=
  if b =? 0 then Raise ZeroDivisionError else Ok (inject_Z a / inject_Z b)%Q.

(** The three lists the loop appends to. *)
Record retention_lists : Type := {
  rentention_count : list Z;
  retention_rates : list Q;
  dates : list string
}.

Definition empty_lists : retention_lists :=
  {| rentention_count := []; retention_rates := []; dates := [] |}.

(** [for i in l: body] over a state. *)
Fixpoint for_each {S I : Type} (body : I -> S -> result S) (l : list I) (s : S)
  : result S :=
  match l with
  | [] => Ok s
  | i :: l' => s' <- body i s ;; for_each body l' s'
  end.

(** [range(a, b)] *)
Definition range (a b : Z) : list Z := seqZ a (b - a).

(** The body of the loop, lines 57 to 79; [t] counts the clock readings. *)
Definition retention_body (W : World) (interval_days : Z) (i : Z)
    (st : retention_lists * nat) : result (retention_lists * nat) :=
  let (acc, t) := st in
  let now := clock W t in
  td <- timedelta (i + interval_days - 1) ;;
  day <- dt_sub now td ;;
  td' <- timedelta interval_days ;;
  next_day <- dt_add day td' ;;
  let day_str := strftime day in
  let next_day_str := strftime next_day in
  let dates' := dates acc ++ [day_str] in
  let unique_userIds := get_unique_user_ids W day_str "backend-sign_up" in
  let unique_userIds_after_interval := get_unique_user_ids W next_day_str "root" in
  let rentention_count' :=
    rentention_count acc ++ [len (unique_userIds_after_interval ∩ unique_userIds)] in
  retention_rate <-
    (if truthy unique_userIds
     then truediv (len (unique_userIds_after_interval ∩ unique_userIds))
                  (len unique_userIds)
     else Ok 0%Q) ;;
  Ok ({| rentention_count := rentention_count';
         retention_rates := retention_rates acc ++ [retention_rate];
         dates := dates' |}, S t).

(** The frame [calculate_retention] returns, column by column. *)
Record RetentionFrame : Type := {
  Date : list string;
  Retention_Rate : list Q;
  retention_count : list Z
}.

Definition calculate_retention (W : World) (interval_days : Z) (t : nat)
  : result (RetentionFrame * nat) :=
  st <- for_each (retention_body W interval_days) (range 1 15) (empty_lists, t) ;;
  let (acc, t') := st in
  Ok ({| Date := reverse (dates acc);
         Retention_Rate := reverse (retention_rates acc);
         retention_count := reverse (rentention_count acc) |}, t').

(** One row of the frame. *)
Record CohortPoint : Type := {
  cp_date : string;
  cp_retention_rate : Q;
  cp_retention_count : Z
}.

Definition points (df : RetentionFrame) : list CohortPoint :=
  zip_with (fun d rc => {| cp_date := d; cp_retention_rate := fst rc;
                           cp_retention_count := snd rc |})
    (Date df) (zip (Retention_Rate df) (retention_count df)).

(** ** [search_funnel] *)

Definition search_funnel_query (start_date end_date : datetime) : json :=
  JObj [
    ("size", JInt 0);
    ("query", JObj [
      ("bool", JObj [
        ("must", JList [
          JObj [("range", JObj [
            ("@timestamp", JObj [
              ("gte", JDate start_date);
              ("lte", JDate end_date)])])]
        ])])]);
    ("aggs", JObj [
      ("by_day", JObj [
        ("date_histogram", JObj [
          ("field", JStr "@timestamp");
          ("calendar_interval", JStr "day");
          ("time_zone", JStr "+08:00")]);
        ("aggs", JObj [
          ("userId_all", JObj [
            ("filter", JObj [("range", JObj [
              ("message.userId", JObj [("gte", JInt 0)])])]);
            ("aggs", JObj [
              ("unique_visitorId", JObj [
                ("cardinality", JObj [
                  ("field", JStr "message.visitorId.keyword")])])])]);
          ("userId_not_0", JObj [
            ("filter", JObj [("range", JObj [
              ("message.userId", JObj [("gt", JInt 0)])])]);
            ("aggs", JObj [
              ("unique_visitorId", JObj [
                ("cardinality", JObj [
                  ("field", JStr "message.visitorId.keyword")])])])]);
          ("new_sign_up", JObj [
            ("filter", JObj [("term", JObj [
              ("message.name.keyword", JStr "backend-sign_up")])]);
            ("aggs", JObj [
              ("unique_visitorId", JObj [
                ("cardinality", JObj [
                  ("field", JStr "message.userId")])])])])
        ])])])
  ].

(** The request [search_funnel] sends when the clock reads [now]. *)
Definition funnel_request (now : datetime) : result json :=
  td <- timedelta 1 ;;
  end_date <- dt_sub now td ;;
  td' <- timedelta (14 - 1) ;;
  start_date <- dt_sub end_date td' ;;
  Ok (search_funnel_query start_date end_date).

Definition search_funnel (W : World) (t : nat) : result (aggregations * nat) :=
  query <- funnel_request (clock W t) ;;
  Ok (client_search W "monitor-prod-20*" query, S t).

(** ** [calculate_funnel] *)

(** One dictionary appended to [data]. *)
Record funnel_dict : Type := {
  d_date : string;
  d_all_visitor_count : Z;
  d_all_registered_count : Z;
  d_all_sign_up_count : Z
}.

Definition funnel_dict_of (bucket : day_bucket) : funnel_dict :=
  {| d_date := key_as_string bucket;
     d_all_visitor_count := userId_all bucket;
     d_all_registered_count := userId_not_0 bucket;
     d_all_sign_up_count := new_sign_up bucket |}.

(** [df[name] = series] on a frame of [n] rows: both carry the default
    index 0, 1, ..., and the assignment aligns on it.  Row [j] receives
    [series[j]], or a missing value ([None], pandas' NaN) when the series
    has no label [j]. *)
Definition assign_aligned (n : nat) (series : list Z) : list (option Z) :=
  (fun j => series !! j) <$> seq 0 n.

Module Funnel.

(** The frame [calculate_funnel] returns, column by column, under the
    names of line 170. *)
Record Frame : Type := {
  date : list Z;
  all_visitor_count : list Z;
  all_registered_count : list Z;
  all_sign_up_count : list Z;
  retention_count : list (option Z)
}.

Record Row : Type := {
  r_date : Z;
  r_all_visitor_count : Z;
  r_all_registered_count : Z;
  r_all_sign_up_count : Z;
  r_retention_count : option Z
}.

(** Row [k] of a frame. *)
Definition row (df : Frame) (k : nat) : option Row :=
  match date df !! k, all_visitor_count df !! k,
        all_registered_count df !! k, all_sign_up_count df !! k,
        retention_count df !! k with
  | Some d, Some v, Some r, Some s, Some c =>
      Some {| r_date := d; r_all_visitor_count := v;
              r_all_registered_count := r; r_all_sign_up_count := s;
              r_retention_count := c |}
  | _, _, _, _, _ => None
  end.

Definition height (df : Frame) : nat := length (date df).

End Funnel.

(** [pd.DataFrame([])] has no column: after [df["rentention_1d"] = ...]
    the frame still has no [date], and [df.date] raises [AttributeError]. *)
Definition calculate_funnel (W : World) (t : nat) : result (Funnel.Frame * nat) :=
  r <- search_funnel W t ;;
  let (response, t1) := r in
  let data := funnel_dict_of <$> by_day response in
  r' <- calculate_retention W 1 t1 ;;
  let (retention, t2) := r' in
  let rentention_1d := assign_aligned (length data) (retention_count retention) in
  match data with
  | [] => Raise AttributeError
  | _ :: _ =>
      Ok ({| Funnel.date := to_datetime W <$> (d_date <$> data);
             Funnel.all_visitor_count := d_all_visitor_count <$> data;
             Funnel.all_registered_count := d_all_registered_count <$> data;
             Funnel.all_sign_up_count := d_all_sign_up_count <$> data;
             Funnel.retention_count := rentention_1d |}, t2)
  end.

(** ** Derived notions used to state the properties *)

(** [o] is the ordinal of a date. *)
Definition in_range (o : Z) : bool := (MINORDINAL <=? o) && (o <=? MAXORDINAL).

(** Offset [i] is computable on day [today]: both intervals are within the
    limits of [timedelta] and both days are dates. *)
Definition step_ok (interval_days today i : Z) : bool :=
  (Z.abs (i + interval_days - 1) <=? 999999999)
  && in_range (today - (i + interval_days - 1))
  && (Z.abs interval_days <=? 999999999)
  && in_range (today - (i + interval_days - 1) + interval_days).

(** All 28 days of a run on day [today] are dates: the acquisition days
    [today - (interval_days + 13) .. today - interval_days] and the
    returning days [today - 13 .. today]. *)
Definition window_ok (interval_days today : Z) : Prop :=
  MINORDINAL <= today - (interval_days + 13)
  /\ today - interval_days <= MAXORDINAL
  /\ MINORDINAL + 13 <= today <= MAXORDINAL.

(** The signup cohort of the day written [day_str], and the users active
    on it. *)
Definition cohort (W : World) (day_str : string) : gset Z :=
  get_unique_user_ids W day_str "backend-sign_up".

Definition active (W : World) (day_str : string) : gset Z :=
  get_unique_user_ids W day_str "root".

(** The point of offset [i] when the clock reads day [today]. *)
Definition cohort_point (W : World) (interval_days today i : Z) : CohortPoint :=
  let day := today - (i + interval_days - 1) in
  let next_day := day + interval_days in
  let signed_up := cohort W (strftime_ord day) in
  let returning := active W (strftime_ord next_day) in
  {| cp_date := strftime_ord day;
     cp_retention_rate :=
       if truthy signed_up
       then (inject_Z (len (returning ∩ signed_up)) / inject_Z (len signed_up))%Q
       else 0%Q;
     cp_retention_count := len (returning ∩ signed_up) |}.

(** Appending the columns of the points [ps] to the three lists. *)
Definition push (acc : retention_lists) (ps : list CohortPoint) : retention_lists :=
  {| rentention_count := rentention_count acc ++ (cp_retention_count <$> ps);
     retention_rates := retention_rates acc ++ (cp_retention_rate <$> ps);
     dates := dates acc ++ (cp_date <$> ps) |}.

(** The points of the offsets [l], the first clock reading being number
    [t]. *)
Fixpoint loop_points (W : World) (interval_days : Z) (l : list Z) (t : nat)
  : result (list CohortPoint) :=
  match l with
  | [] => Ok []
  | i :: l' =>
      if step_ok interval_days (ordinal (clock W t)) i
      then ps <- loop_points W interval_days l' (S t) ;;
           Ok (cohort_point W interval_days (ordinal (clock W t)) i :: ps)
      else Raise OverflowError
  end.

(** The frame whose rows are [ps]. *)
Definition frame_of (ps : list CohortPoint) : RetentionFrame :=
  {| Date := cp_date <$> ps;
     Retention_Rate := cp_retention_rate <$> ps;
     retention_count := cp_retention_count <$> ps |}.

(** The [n] clock readings from number [t] on fall on the day [today]. *)
Definition same_day (W : World) (t n : nat) (today : Z) : Prop :=
  forall j, (j < n)%nat -> ordinal (clock W (t + j)) = today.



(** ** A small world to run the definitions in

    It is noon on 2026-11-03.  Users 1, 2, 3 signed up on 2026-11-01 and
    users 2, 3, 4 were active on 2026-11-02; there is no other event.  The
    histogram answers with the buckets [hist]. *)

Definition demo_buckets (ids : list Z) : list term_bucket :=
  (fun k => {| key := k; doc_count := 1 |}) <$> ids.

Definition demo_search (hist : list day_bucket) (index : string) (body : json)
  : aggregations :=
  match jget [Key "query"; Key "bool"; Key "must"; Idx 0%nat; Key "range";
              Key "@timestamp"; Key "gte"] body,
        jget [Key "query"; Key "bool"; Key "must"; Idx 1%nat; Key "term";
              Key "message.name.keyword"] body with
  | Some (JStr gte), Some (JStr name) =>
      if String.eqb gte "2026-11-01T00:00:00" && String.eqb name "backend-sign_up"
      then {| unique_userIds := demo_buckets [1; 2; 3]; by_day := [] |}
      else if String.eqb gte "2026-11-02T00:00:00" && String.eqb name "root"
      then {| unique_userIds := demo_buckets [2; 3; 4]; by_day := [] |}
      else {| unique_userIds := []; by_day := [] |}
  | _, _ => {| unique_userIds := []; by_day := hist |}
  end.

Definition noon_2026_11_03 : datetime :=
  {| ordinal := 739923; micros := 43200000000 |}.

Definition noon_valid (n : nat) :
  MINORDINAL <= ordinal noon_2026_11_03 <= MAXORDINAL :=
  conj (proj1 (Z.leb_le MINORDINAL 739923) eq_refl)
       (proj1 (Z.leb_le 739923 MAXORDINAL) eq_refl).

Definition demo_world (hist : list day_bucket) : World :=
  {| clock := fun _ => noon_2026_11_03;
     clock_valid := noon_valid;
     client_search := demo_search hist;
     to_datetime := fun s => Z.of_nat (String.length s) |}.

Definition demo_day (n : Z) : day_bucket :=
  {| key_as_string := strftime_ord (739908 + n) +:+ "T00:00:00.000+08:00";
     userId_all := 100 + n;
     userId_not_0 := 50 + n;
     new_sign_up := 10 + n |}.

(** Fourteen days, 2026-10-20 to 2026-11-02. *)
Definition demo_hist : list day_bucket := demo_day <$> range 1 15.

(** The frame of [calculate_retention(1)] in that world. *)
Definition demo_frame : RetentionFrame :=
  {| Date := ["2026-10-20"; "2026-10-21"; "2026-10-22"; "2026-10-23";
              "2026-10-24"; "2026-10-25"; "2026-10-26"; "2026-10-27";
              "2026-10-28"; "2026-10-29"; "2026-10-30"; "2026-10-31";
              "2026-11-01"; "2026-11-02"];
     Retention_Rate := [0; 0; 0; 0; 0; 0; 0; 0; 0; 0; 0; 0; 2 # 3; 0]%Q;
     retention_count := [0; 0; 0; 0; 0; 0; 0; 0; 0; 0; 0; 0; 2; 0] |}.

(** A run that starts in the last second of 2026-11-03: the first clock
    reading falls on that day, the others on the next. *)
Definition midnight_clock (n : nat) : datetime :=
  match n with
  | O => {| ordinal := 739923; micros := 86399000000 |}
  | S _ => {| ordinal := 739924; micros := 5000000 |}
  end.

Definition midnight_valid (n : nat) :
  MINORDINAL <= ordinal (midnight_clock n) <= MAXORDINAL :=
  match n with
  | O => conj (proj1 (Z.leb_le MINORDINAL 739923) eq_refl)
              (proj1 (Z.leb_le 739923 MAXORDINAL) eq_refl)
  | S _ => conj (proj1 (Z.leb_le MINORDINAL 739924) eq_refl)
                (proj1 (Z.leb_le 739924 MAXORDINAL) eq_refl)
  end.

Definition midnight_world : World :=
  {| clock := midnight_clock;
     clock_valid := midnight_valid;
     client_search := demo_search [];
     to_datetime := fun s => Z.of_nat (String.length s) |}.

(** A histogram of one day with more registered visitors than visitors. *)
Definition odd_hist : list day_bucket :=
  [{| key_as_string := "2026-11-02T00:00:00.000+08:00";
      userId_all := 5; userId_not_0 := 7; new_sign_up := -1 |}].

(** ** The page

    What the script does after the definitions: it computes the funnel,
    draws it, maps the option chosen in the selector to a number of days
    and computes the retention series for it.  The drawing calls hand the
    frames to the plotting library and are left out. *)

(** The options of [st.radio]. *)
Definition interval_options : list string :=
  ["1日留存"; "3日留存"; "7日留存"; "15日留存"; "30日留存"].

Definition interval_days_map : gmap string Z :=
  list_to_map [("1日留存", 1); ("3日留存", 3); ("7日留存", 7);
               ("15日留存", 15); ("30日留存", 30)].

(** How a run of the page ends: with the two frames that are drawn, with
    an exception of the calculators, or with the [KeyError] of
    [interval_days_map[interval_option]]. *)
Inductive page_result : Type :=
| PageOk (funnel : Funnel.Frame) (retention : RetentionFrame) (t : nat)
| PageRaise (e : exn)
| PageKeyError (k : string).

(** Lines 185 to 264, [interval_option] being what [st.radio] returns. *)
Definition page (W : World) (interval_option : string) (t : nat) : page_result :=
  match calculate_funnel W t with
  | Raise e => PageRaise e
  | Ok (df, t1) =>
      match interval_days_map !! interval_option with
      | None => PageKeyError interval_option
      | Some interval_days =>
          match calculate_retention W interval_days t1 with
          | Raise e => PageRaise e
          | Ok (df', t2) => PageOk df df' t2
          end
      end
  end.

(** ** More of the small world *)

(** The small world with every response turned around, every key in it
    twice and other [doc_count]s. *)
Definition shuffled_search (hist : list day_bucket) (index : string) (body : json)
  : aggregations :=
  let response := demo_search hist index body in
  {| unique_userIds :=
       (fun b => {| key := key b; doc_count := 7 |})
         <$> (reverse (unique_userIds response) ++ unique_userIds response);
     by_day := by_day response |}.

Definition shuffled_world (hist : list day_bucket) : World :=
  {| clock := fun _ => noon_2026_11_03;
     clock_valid := noon_valid;
     client_search := shuffled_search hist;
     to_datetime := fun s => Z.of_nat (String.length s) |}.

(** Sixteen days, 2026-10-20 to 2026-11-04. *)
Definition long_hist : list day_bucket := demo_day <$> range 1 17.

(** * Properties *)

(** ** The calendar on examples *)

Example ord_2026_11_03 : ymd_to_ord 2026 11 3 = 739923.
Proof. reflexivity. Qed.

Example strftime_2026_11_03 : strftime_ord 739923 = "2026-11-03".
Proof. reflexivity. Qed.

Example strftime_leap_day : strftime_ord 738945 = "2024-02-29".
Proof. reflexivity. Qed.

Example strftime_min : strftime_ord MINORDINAL = "1-01-01".
Proof. reflexivity. Qed.

Example strftime_max : strftime_ord MAXORDINAL = "9999-12-31".
Proof. reflexivity. Qed.

Example strftime_century : strftime_ord 693655 = "1900-03-01".
Proof. reflexivity. Qed.

Example strftime_cycle_end : strftime_ord 146097 = "400-12-31".
Proof. reflexivity. Qed.

Example demo_retention_1 :
  value_of (calculate_retention (demo_world demo_hist) 1 0) =
  Ok {| Date := ["2026-10-20"; "2026-10-21"; "2026-10-22"; "2026-10-23";
                 "2026-10-24"; "2026-10-25"; "2026-10-26"; "2026-10-27";
                 "2026-10-28"; "2026-10-29"; "2026-10-30"; "2026-10-31";
                 "2026-11-01"; "2026-11-02"];
        Retention_Rate := [0; 0; 0; 0; 0; 0; 0; 0; 0; 0; 0; 0; 2 # 3; 0]%Q;
        retention_count := [0; 0; 0; 0; 0; 0; 0; 0; 0; 0; 0; 0; 2; 0] |}.
Proof. vm_compute. reflexivity. Qed.

(** The clock is read once per offset.  In a run across midnight the
    offsets 1 and 2 are taken from different days and name the same
    acquisition day. *)
Example midnight_run :
  (Date <$> value_of (calculate_retention midnight_world 1 0)) =
  Ok ["2026-10-21"; "2026-10-22"; "2026-10-23"; "2026-10-24"; "2026-10-25";
      "2026-10-26"; "2026-10-27"; "2026-10-28"; "2026-10-29"; "2026-10-30";
      "2026-10-31"; "2026-11-01"; "2026-11-02"; "2026-11-02"].
Proof. vm_compute. reflexivity. Qed.

(** The largest interval that 2026-11-03 allows: the first acquisition day
    is 0001-01-01. *)
Example largest_interval :
  (Date <$> value_of (calculate_retention (demo_world demo_hist) 739909 0)) =
  Ok ["1-01-01"; "1-01-02"; "1-01-03"; "1-01-04"; "1-01-05"; "1-01-06";
      "1-01-07"; "1-01-08"; "1-01-09"; "1-01-10"; "1-01-11"; "1-01-12";
      "1-01-13"; "1-01-14"]
  /\ calculate_retention (demo_world demo_hist) 739910 0 = Raise OverflowError.
Proof. split; vm_compute; reflexivity. Qed.

(** ** The calendar: [strftime] can be read back *)

Lemma is_leap_decomp n400 n100 n4 n1 :
  0 <= n100 <= 3 -> 0 <= n4 <= 24 -> 0 <= n1 <= 3 ->
  is_leap (n400 * 400 + 1 + n100 * 100 + n4 * 4 + n1)
  = (n1 =? 3) && (negb (n4 =? 24) || (n100 =? 3)).
Proof.
  intros H100 H4 H1. unfold is_leap.
  destruct (Z.eqb_spec n1 3), (Z.eqb_spec n4 24), (Z.eqb_spec n100 3);
    cbn [negb orb andb];
    repeat match goal with
           | |- context [?a =? 0] => destruct (Z.eqb_spec a 0)
           end; cbn [negb orb andb]; try reflexivity; exfalso; Z.div_mod_to_equations; lia.
Qed.

Lemma days_before_year_decomp n400 n100 n4 n1 :
  0 <= n400 -> 0 <= n100 <= 3 -> 0 <= n4 <= 24 -> 0 <= n1 <= 3 ->
  days_before_year (n400 * 400 + 1 + n100 * 100 + n4 * 4 + n1)
  = n400 * DI400Y + n100 * DI100Y + n4 * DI4Y + n1 * 365.
Proof.
  intros H400 H100 H4 H1. unfold days_before_year, DI400Y, DI100Y, DI4Y.
  cbn zeta. Z.div_mod_to_equations. lia.
Qed.

(** Evaluation of the closed calendar terms of a goal. *)
Ltac eval_calendar :=
  repeat match goal with
    | |- context [Z.pos ?a - 1] =>
        let v := eval vm_compute in (Z.pos a - 1) in
        change (Z.pos a - 1) with v
    | |- context [Z.pos ?a =? Z.pos ?b] =>
        let v := eval vm_compute in (Z.pos a =? Z.pos b) in
        change (Z.pos a =? Z.pos b) with v
    | |- context [Z.pos ?a <? Z.pos ?b] =>
        let v := eval vm_compute in (Z.pos a <? Z.pos b) in
        change (Z.pos a <? Z.pos b) with v
    | |- context [days_in_month_tbl (Z.pos ?a)] =>
        let v := eval vm_compute in (days_in_month_tbl (Z.pos a)) in
        change (days_in_month_tbl (Z.pos a)) with v
    | |- context [days_before_month_tbl (Z.pos ?a)] =>
        let v := eval vm_compute in (days_before_month_tbl (Z.pos a)) in
        change (days_before_month_tbl (Z.pos a)) with v
    end.


Lemma ord_to_ymd_spec o :
  MINORDINAL <= o <= MAXORDINAL ->
  let '(y, m, d) := ord_to_ymd o in
  valid_ymd y m d /\ ymd_to_ord y m d = o.
Proof.
  unfold MINORDINAL, MAXORDINAL. intros Ho. unfold ord_to_ymd. cbn zeta.
  remember (o - 1) as o0 eqn:Eo0.
  remember (o0 / DI400Y) as n400 eqn:E1. remember (o0 mod DI400Y) as r400 eqn:E2.
  assert (H400 : o0 = DI400Y * n400 + r400 /\ 0 <= r400 < DI400Y /\ 0 <= n400 <= 24).
  { subst n400 r400. unfold DI400Y. Z.div_mod_to_equations. lia. }
  clear E1 E2.
  remember (r400 / DI100Y) as n100 eqn:E1. remember (r400 mod DI100Y) as r100 eqn:E2.
  assert (H100 : r400 = DI100Y * n100 + r100 /\ 0 <= r100 < DI100Y /\ 0 <= n100 <= 4).
  { subst n100 r100. unfold DI400Y, DI100Y in *. Z.div_mod_to_equations. lia. }
  clear E1 E2.
  remember (r100 / DI4Y) as n4 eqn:E1. remember (r100 mod DI4Y) as r4 eqn:E2.
  assert (H4 : r100 = DI4Y * n4 + r4 /\ 0 <= r4 < DI4Y /\ 0 <= n4 <= 24).
  { subst n4 r4. unfold DI100Y, DI4Y in *. Z.div_mod_to_equations. lia. }
  clear E1 E2.
  remember (r4 / 365) as n1 eqn:E1. remember (r4 mod 365) as n eqn:E2.
  assert (H1 : r4 = 365 * n1 + n /\ 0 <= n < 365 /\ 0 <= n1 <= 4).
  { subst n1 n. unfold DI4Y in *. Z.div_mod_to_equations. lia. }
  clear E1 E2.
  unfold DI400Y, DI100Y, DI4Y in *.
  destruct (Z.eqb_spec n1 4) as [En1|En1]; cbn [orb].
  { (* the last day of a leap year that is not the end of a century *)
    replace (n400 * 400 + 1 + n100 * 100 + n4 * 4 + n1 - 1)
      with (n400 * 400 + 1 + n100 * 100 + n4 * 4 + 3) by lia.
    assert (Hl : is_leap (n400 * 400 + 1 + n100 * 100 + n4 * 4 + 3) = true).
    { rewrite is_leap_decomp by lia.
      destruct (Z.eqb_spec n4 24); [exfalso; lia|]. reflexivity. }
    unfold valid_ymd, ymd_to_ord, days_before_month, days_in_month.
    rewrite Hl, days_before_year_decomp by lia.
    unfold DI400Y, DI100Y, DI4Y. cbn. lia. }
  destruct (Z.eqb_spec n100 4) as [En100|En100]; cbn [orb].
  { (* the last day of a cycle of 400 years *)
    replace (n400 * 400 + 1 + n100 * 100 + n4 * 4 + n1 - 1)
      with (n400 * 400 + 1 + 3 * 100 + 24 * 4 + 3) by lia.
    assert (Hl : is_leap (n400 * 400 + 1 + 3 * 100 + 24 * 4 + 3) = true).
    { by rewrite is_leap_decomp by lia. }
    unfold valid_ymd, ymd_to_ord, days_before_month, days_in_month.
    rewrite Hl, days_before_year_decomp by lia.
    unfold DI400Y, DI100Y, DI4Y. cbn. lia. }
  remember (n400 * 400 + 1 + n100 * 100 + n4 * 4 + n1) as year eqn:Ey.
  assert (Hl : is_leap year = (n1 =? 3) && (negb (n4 =? 24) || (n100 =? 3))).
  { subst year. apply is_leap_decomp; lia. }
  assert (Hdby : days_before_year year = o - 1 - n).
  { subst year. rewrite days_before_year_decomp by lia.
    unfold DI400Y, DI100Y, DI4Y. lia. }
  assert (Hy : 1 <= year <= 9999) by lia.
  rewrite <- Hl.
  remember ((n + 50) / 32) as month eqn:Em.
  assert (Hm : 32 * month <= n + 50 < 32 * month + 32).
  { subst month. Z.div_mod_to_equations. lia. }
  clear Em.
  assert (Hcases : month = 1 \/ month = 2 \/ month = 3 \/ month = 4 \/ month = 5
                   \/ month = 6 \/ month = 7 \/ month = 8 \/ month = 9
                   \/ month = 10 \/ month = 11 \/ month = 12) by lia.
  destruct (is_leap year) eqn:Eleap;
    repeat (destruct Hcases as [->|Hcases]); try subst month;
    cbn [days_before_month_tbl andb Z.ltb Z.compare Pos.compare Pos.compare_cont];
    (match goal with
     | |- context [n <? ?p] => destruct (Z.ltb_spec n p)
     end;
     unfold valid_ymd, ymd_to_ord, days_before_month, days_in_month;
     rewrite Hdby, ?Eleap; eval_calendar; cbn [andb]; lia).
Qed.

Lemma digit_value_digit z : digit_value (digit z) = z mod 10.
Proof.
  assert (H : 0 <= z mod 10 < 10) by (apply Z.mod_pos_bound; lia).
  unfold digit.
  assert (Hc : z mod 10 = 0 \/ z mod 10 = 1 \/ z mod 10 = 2 \/ z mod 10 = 3
               \/ z mod 10 = 4 \/ z mod 10 = 5 \/ z mod 10 = 6 \/ z mod 10 = 7
               \/ z mod 10 = 8 \/ z mod 10 = 9) by lia.
  repeat (destruct Hc as [->|Hc]); try rewrite Hc; reflexivity.
Qed.

Lemma date_of_string_format y m d :
  1 <= y <= 9999 -> 1 <= m <= 12 -> 1 <= d <= 31 ->
  date_of_string (year_digits y +:+ "-" +:+ digits 2 m +:+ "-" +:+ digits 2 d)
  = (y, m, d).
Proof.
  intros Hy Hm Hd. unfold year_digits.
  destruct (Z.ltb_spec y 10); [|destruct (Z.ltb_spec y 100);
    [|destruct (Z.ltb_spec y 1000)]];
    cbv [digits String.append date_of_string String.length String.substring
         number Nat.sub Nat.add];
    rewrite !digit_value_digit; repeat f_equal; Z.div_mod_to_equations; lia.
Qed.

Lemma days_in_month_le y m : days_in_month y m <= 31.
Proof.
  unfold days_in_month. destruct ((m =? 2) && is_leap y); [lia|].
  unfold days_in_month_tbl.
  repeat match goal with
         | |- context [match ?x with _ => _ end] => destruct x
         end; lia.
Qed.

(** The string [strftime] writes for a date denotes that date. *)
Lemma ordinal_of_strftime o :
  MINORDINAL <= o <= MAXORDINAL -> ordinal_of_string (strftime_ord o) = o.
Proof.
  intros Ho. pose proof (ord_to_ymd_spec o Ho) as H.
  unfold ordinal_of_string, strftime_ord.
  destruct (ord_to_ymd o) as [[y m] d].
  destruct H as [(Hy & Hm & Hd) Hord].
  pose proof (days_in_month_le y m).
  rewrite date_of_string_format by lia. exact Hord.
Qed.

(** ** Date arithmetic *)

Lemma dt_add_ordinal dt td :
  dt_add dt td =
  if in_range (ordinal dt + days td)
  then Ok {| ordinal := ordinal dt + days td; micros := micros dt |}
  else Raise OverflowError.
Proof. reflexivity. Qed.

(** ** The loop of [calculate_retention], one offset at a time *)

Lemma truthy_len (s : gset Z) : truthy s = true -> (len s =? 0) = false.
Proof.
  unfold truthy, len. intros H.
  apply negb_true_iff, Nat.eqb_neq in H. apply Z.eqb_neq. lia.
Qed.

Lemma retention_body_step W interval_days i acc t :
  retention_body W interval_days i (acc, t) =
  if step_ok interval_days (ordinal (clock W t)) i
  then Ok (push acc [cohort_point W interval_days (ordinal (clock W t)) i], S t)
  else Raise OverflowError.
Proof.
  unfold retention_body, step_ok, timedelta, dt_sub.
  destruct (Z.abs (i + interval_days - 1) <=? 999999999); simpl; [|done].
  rewrite dt_add_ordinal. simpl.
  replace (ordinal (clock W t) + - (i + interval_days - 1))
    with (ordinal (clock W t) - (i + interval_days - 1)) by lia.
  destruct (in_range (ordinal (clock W t) - (i + interval_days - 1))); simpl; [|done].
  destruct (Z.abs interval_days <=? 999999999); simpl; [|done].
  rewrite dt_add_ordinal. simpl.
  destruct (in_range (ordinal (clock W t) - (i + interval_days - 1) + interval_days));
    simpl; [|done].
  unfold strftime, cohort_point, cohort, active, push. simpl.
  destruct (truthy _) eqn:Ht; simpl; [|done].
  unfold truediv. by rewrite (truthy_len _ Ht).
Qed.

Lemma push_nil acc : push acc [] = acc.
Proof. destruct acc. unfold push. simpl. by rewrite !app_nil_r. Qed.

Lemma push_cons acc p ps : push (push acc [p]) ps = push acc (p :: ps).
Proof. unfold push. simpl. by rewrite <- !app_assoc. Qed.

Lemma for_each_retention W interval_days l : forall acc t,
  for_each (retention_body W interval_days) l (acc, t) =
  (ps <- loop_points W interval_days l t ;; Ok (push acc ps, (t + length l)%nat)).
Proof.
  induction l as [|i l IH]; intros acc t; cbn [for_each loop_points length].
  - simpl. by rewrite push_nil, Nat.add_0_r.
  - rewrite retention_body_step.
    destruct (step_ok _ _ _); simpl; [|done].
    rewrite IH. destruct (loop_points _ _ _ _); simpl; [|done].
    by rewrite push_cons, Nat.add_succ_r.
Qed.

Lemma points_frame_of ps : points (frame_of ps) = ps.
Proof.
  unfold points, frame_of. simpl.
  induction ps as [|[d r c] ps IH]; [done|]. cbn. f_equal. exact IH.
Qed.

Lemma calculate_retention_points W interval_days t :
  calculate_retention W interval_days t =
  (ps <- loop_points W interval_days (range 1 15) t ;;
   Ok (frame_of (reverse ps), (t + 14)%nat)).
Proof.
  unfold calculate_retention. rewrite for_each_retention.
  destruct (loop_points _ _ _ _); simpl; [|done].
  unfold frame_of. by rewrite !fmap_reverse.
Qed.

Lemma range_1_15 : range 1 15 = [1; 2; 3; 4; 5; 6; 7; 8; 9; 10; 11; 12; 13; 14].
Proof. reflexivity. Qed.

Lemma window_ok_steps interval_days today :
  forallb (step_ok interval_days today) (range 1 15) = true <->
  window_ok interval_days today.
Proof.
  rewrite range_1_15. unfold window_ok, MINORDINAL, MAXORDINAL.
  cbn [forallb]. unfold step_ok, in_range, MINORDINAL, MAXORDINAL.
  rewrite !andb_true_iff, !Z.leb_le. lia.
Qed.

Lemma loop_points_today W interval_days today l : forall t,
  same_day W t (length l) today ->
  loop_points W interval_days l t =
  if forallb (step_ok interval_days today) l
  then Ok (cohort_point W interval_days today <$> l)
  else Raise OverflowError.
Proof.
  induction l as [|i l IH]; intros t Hday; [done|].
  cbn [loop_points forallb fmap list_fmap].
  assert (Ht : ordinal (clock W t) = today).
  { rewrite <- (Hday 0%nat) by (simpl; lia). by rewrite Nat.add_0_r. }
  rewrite Ht.
  destruct (step_ok interval_days today i); [|done].
  rewrite IH.
  - by destruct (forallb _ l).
  - intros j Hj. rewrite Nat.add_succ_comm. apply Hday. simpl. lia.
Qed.

(** *** Runs within one day *)

Section FixedDay.

Variable W : World.
Variable interval_days : Z.
Variable t : nat.
Variable today : Z.
Hypothesis Hday : same_day W t 14 today.

(** What a run returns when all its clock readings fall on [today]. *)
Lemma calculate_retention_today :
  calculate_retention W interval_days t =
  if forallb (step_ok interval_days today) (range 1 15)
  then Ok (frame_of (cohort_point W interval_days today <$> reverse (range 1 15)),
           (t + 14)%nat)
  else Raise OverflowError.
Proof.
  rewrite calculate_retention_points.
  rewrite (loop_points_today W interval_days today) by exact Hday.
  destruct (forallb _ _); [|done]. simpl bind. by rewrite fmap_reverse.
Qed.

(** A run whose 28 days are dates returns the points of the offsets
    14, 13, ..., 1. *)
Lemma calculate_retention_window :
  window_ok interval_days today ->
  calculate_retention W interval_days t =
  Ok (frame_of (cohort_point W interval_days today <$> reverse (range 1 15)),
      (t + 14)%nat).
Proof.
  intros Hwin. rewrite calculate_retention_today.
  apply window_ok_steps in Hwin. by rewrite Hwin.
Qed.


Lemma same_day_valid : MINORDINAL <= today <= MAXORDINAL.
Proof.
  rewrite <- (Hday 0%nat) by lia. apply clock_valid.
Qed.

End FixedDay.

Lemma offsets_lookup {A : Type} (f : Z -> A) (k : nat) :
  (k < 14)%nat ->
  (f <$> reverse (range 1 15)) !! k = Some (f (14 - Z.of_nat k)).
Proof.
  intros Hk.
  do 14 (destruct k as [|k]; [reflexivity|]). lia.
Qed.

Lemma offsets_dates (f : Z -> string) (a b : Z) :
  (f <$> ((fun i => a - (i + b - 1)) <$> reverse (range 1 15))) =
  f <$> seqZ (a - (b + 13)) 14.
Proof.
  f_equal.
  change (reverse (range 1 15)) with [14; 13; 12; 11; 10; 9; 8; 7; 6; 5; 4; 3; 2; 1].
  unfold seqZ. change (Z.to_nat 14) with 14%nat.
  cbn [seq fmap list_fmap]. repeat (f_equal; try lia).
Qed.

Lemma ordinal_of_strftime_seqZ (a n : Z) :
  MINORDINAL <= a -> a + n - 1 <= MAXORDINAL ->
  ordinal_of_string <$> (strftime_ord <$> seqZ a n) = seqZ a n.
Proof.
  intros Ha Hn. rewrite <- list_fmap_compose.
  rewrite <- (list_fmap_id (seqZ a n)) at 2.
  apply Forall_fmap_ext, Forall_forall. intros o Ho.
  apply elem_of_seqZ in Ho. change (ordinal_of_string (strftime_ord o) = o).
  apply ordinal_of_strftime. unfold MINORDINAL, MAXORDINAL in *. lia.
Qed.

(** C1, as amended: for every positive [interval_days] for which
    [today - (interval_days + 13)] is not before 0001-01-01, a run of
    [calculate_retention] whose 14 clock readings, one per offset, all
    fall on the one day [today] returns
    exactly 14 points; the point at position [14 - i] is that of offset
    [i = 1..14], with acquisition day [today - (i + interval_days - 1)]
    and returning day [day + interval_days]; the dates are those of the
    consecutive days [today - (interval_days + 13) .. today - interval_days],
    earliest first, and read back as these days. *)
Theorem calculate_retention_series W interval_days t today :
  0 < interval_days ->
  same_day W t 14 today ->
  MINORDINAL <= today - (interval_days + 13) ->
  exists df,
    calculate_retention W interval_days t = Ok (df, (t + 14)%nat)
    /\ length (points df) = 14%nat
    /\ Date df = strftime_ord <$> seqZ (today - (interval_days + 13)) 14
    /\ ordinal_of_string <$> Date df = seqZ (today - (interval_days + 13)) 14
    /\ (forall d d' : Z, forall j k : nat,
          seqZ (today - (interval_days + 13)) 14 !! j = Some d ->
          seqZ (today - (interval_days + 13)) 14 !! k = Some d' ->
          (j < k)%nat -> d < d')
    /\ seqZ (today - (interval_days + 13)) 14 !! 0%nat
       = Some (today - (interval_days + 13))
    /\ seqZ (today - (interval_days + 13)) 14 !! 13%nat
       = Some (today - interval_days)
    /\ forall i, 1 <= i <= 14 ->
         let day := today - (i + interval_days - 1) in
         let next_day := day + interval_days in
         exists p,
           points df !! Z.to_nat (14 - i) = Some p
           /\ cp_date p = strftime_ord day
           /\ cp_retention_count p =
                len (active W (strftime_ord next_day) ∩ cohort W (strftime_ord day)).
Proof.
  intros Hpos Hday Hmin.
  pose proof (same_day_valid W t today Hday) as Hvalid.
  assert (Hwin : window_ok interval_days today).
  { unfold window_ok, MINORDINAL, MAXORDINAL in *. lia. }
  eexists. split; [exact (calculate_retention_window W _ t today Hday Hwin)|].
  rewrite points_frame_of.
  split; [reflexivity|].
  assert (Hdates : Date (frame_of (cohort_point W interval_days today
                                     <$> reverse (range 1 15)))
                   = strftime_ord <$> seqZ (today - (interval_days + 13)) 14).
  { unfold frame_of, cohort_point. cbn [Date].
    rewrite <- list_fmap_compose.
    change (cp_date ∘ _) with
      (strftime_ord ∘ (fun i => today - (i + interval_days - 1))).
    rewrite list_fmap_compose. apply offsets_dates. }
  split; [exact Hdates|].
  split.
  { rewrite Hdates.
    apply ordinal_of_strftime_seqZ; unfold MINORDINAL, MAXORDINAL in *; lia. }
  split.
  { intros d d' j k Hj Hk Hjk.
    apply lookup_seqZ in Hj as [-> _]. apply lookup_seqZ in Hk as [-> _]. lia. }
  split; [rewrite lookup_seqZ; split; lia|].
  split; [rewrite lookup_seqZ; split; lia|].
  intros i Hi day next_day.
  exists (cohort_point W interval_days today i). split.
  - rewrite offsets_lookup by lia. f_equal. f_equal. lia.
  - split; reflexivity.
Qed.

(** ** Points *)

Lemma len_nonneg (s : gset Z) : 0 <= len s.
Proof. unfold len. lia. Qed.

Lemma len_intersection_le (a b : gset Z) : len (a ∩ b) <= len b.
Proof.
  unfold len. apply Nat2Z.inj_le. apply subseteq_size.
  apply intersection_subseteq_r.
Qed.

Lemma truthy_pos (s : gset Z) : truthy s = true <-> 0 < len s.
Proof.
  unfold truthy, len. rewrite negb_true_iff, Nat.eqb_neq. lia.
Qed.

Lemma truthy_empty (s : gset Z) : truthy s = false <-> s = ∅.
Proof.
  unfold truthy. rewrite negb_false_iff, Nat.eqb_eq, size_empty_iff.
  by unfold_leibniz.
Qed.

Lemma ratio_bounds (a b : Z) :
  0 <= a <= b -> 0 < b -> (0 <= inject_Z a / inject_Z b <= 1)%Q.
Proof.
  intros [Ha Hab] Hb.
  assert (Hb' : (0 < inject_Z b)%Q) by (change 0%Q with (inject_Z 0); by rewrite <- Zlt_Qlt).
  split.
  - apply Qle_shift_div_l; [exact Hb'|].
    rewrite Qmult_0_l. change 0%Q with (inject_Z 0). by rewrite <- Zle_Qle.
  - apply Qle_shift_div_r; [exact Hb'|].
    rewrite Qmult_1_l. by rewrite <- Zle_Qle.
Qed.

(** What the point of an offset holds. *)
Lemma cohort_point_spec W interval_days today i :
  let day := today - (i + interval_days - 1) in
  let signed_up := cohort W (strftime_ord day) in
  let returning := active W (strftime_ord (day + interval_days)) in
  let p := cohort_point W interval_days today i in
  cp_date p = strftime_ord day
  /\ cp_retention_count p = len (signed_up ∩ returning)
  /\ 0 <= cp_retention_count p <= len signed_up
  /\ (0 < len signed_up ->
        cp_retention_rate p
        = (inject_Z (cp_retention_count p) / inject_Z (len signed_up))%Q
        /\ (0 <= cp_retention_rate p <= 1)%Q)
  /\ (signed_up = ∅ -> cp_retention_rate p = 0%Q /\ cp_retention_count p = 0).
Proof.
  intros day signed_up returning p. subst p. unfold cohort_point.
  fold day. fold signed_up. fold returning. cbn [cp_date cp_retention_count cp_retention_rate].
  pose proof (len_nonneg (returning ∩ signed_up)) as H0.
  pose proof (len_intersection_le returning signed_up) as H1.
  split; [reflexivity|].
  split; [by rewrite (comm_L (∩) signed_up returning)|].
  split; [lia|].
  split.
  - intros Hpos. apply truthy_pos in Hpos as Ht. rewrite Ht.
    split; [reflexivity|]. apply ratio_bounds; lia.
  - intros Hempty. apply truthy_empty in Hempty as Ht. rewrite Ht.
    split; [reflexivity|]. rewrite Hempty.
    by rewrite (right_absorb_L ∅ (∩)).
Qed.

(** Every point of a run is the point of one of its offsets on the day one
    of its clock readings fell on. *)
Lemma loop_points_Forall W interval_days l : forall t ps,
  loop_points W interval_days l t = Ok ps ->
  Forall (fun p => exists today i, p = cohort_point W interval_days today i) ps.
Proof.
  induction l as [|i l IH]; intros t ps; cbn [loop_points].
  - intros [= <-]. constructor.
  - destruct (step_ok _ _ _); [|discriminate].
    destruct (loop_points W interval_days l (S t)) as [ps'|e] eqn:E; [|discriminate].
    intros [= <-]. constructor; [eauto | by eapply IH].
Qed.

Lemma calculate_retention_Forall W interval_days t df t' :
  calculate_retention W interval_days t = Ok (df, t') ->
  Forall (fun p => exists today i, p = cohort_point W interval_days today i)
    (points df).
Proof.
  rewrite calculate_retention_points.
  destruct (loop_points _ _ _ _) as [ps|e] eqn:E; [|discriminate].
  intros [= <- <-]. rewrite points_frame_of.
  apply Forall_reverse. by eapply loop_points_Forall.
Qed.



(** C2: in every frame [calculate_retention] returns, each point is that
    of an acquisition day [day]: its [retention_count] is the size of the
    intersection of the signup set of [day] and the active set of
    [day + interval_days], so it lies between 0 and the size of the
    cohort; when the cohort is not empty its rate is that count divided by
    the size of the cohort, a number between 0 and 1. *)
Theorem cohort_point_invariant W interval_days t df t' :
  calculate_retention W interval_days t = Ok (df, t') ->
  Forall (fun p =>
    exists day : Z,
      let signed_up := cohort W (strftime_ord day) in
      let returning := active W (strftime_ord (day + interval_days)) in
      cp_date p = strftime_ord day
      /\ cp_retention_count p = len (signed_up ∩ returning)
      /\ 0 <= cp_retention_count p <= len signed_up
      /\ (0 < len signed_up ->
            cp_retention_rate p
            = (inject_Z (cp_retention_count p) / inject_Z (len signed_up))%Q
            /\ (0 <= cp_retention_rate p <= 1)%Q)) (points df).
Proof.
  intros Hrun. apply calculate_retention_Forall in Hrun.
  eapply Forall_impl; [exact Hrun|].
  intros p (today & i & ->).
  exists (today - (i + interval_days - 1)).
  pose proof (cohort_point_spec W interval_days today i) as H. cbn zeta in H.
  cbn zeta. tauto.
Qed.






Lemma cohort_point_ext W1 W2 interval_days today i :
  (forall day_str event,
     get_unique_user_ids W1 day_str event = get_unique_user_ids W2 day_str event) ->
  cohort_point W1 interval_days today i = cohort_point W2 interval_days today i.
Proof.
  intros H. unfold cohort_point, cohort, active. by rewrite !H.
Qed.

(** C5: two runs of [calculate_retention] with the same [interval_days],
    on the same day, against query services that answer every (day, event)
    query alike, have the same outcome: the same frame, or the same
    exception. *)
Theorem calculate_retention_deterministic W1 W2 interval_days t1 t2 today :
  same_day W1 t1 14 today ->
  same_day W2 t2 14 today ->
  (forall day_str event,
     get_unique_user_ids W1 day_str event = get_unique_user_ids W2 day_str event) ->
  value_of (calculate_retention W1 interval_days t1)
  = value_of (calculate_retention W2 interval_days t2).
Proof.
  intros H1 H2 Hsets.
  rewrite (calculate_retention_today W1 interval_days t1 today H1).
  rewrite (calculate_retention_today W2 interval_days t2 today H2).
  destruct (forallb _ _); [|done]. cbn [value_of]. do 2 f_equal.
  apply list_fmap_ext. intros _ i _. by apply cohort_point_ext.
Qed.

(** C10, as amended: [calculate_retention] does not check the sign of
    [interval_days].  For a zero or negative [interval_days] whose days are
    dates (today is not before 0001-01-14 and [today - interval_days] not
    after 9999-12-31) it returns 14 points; the returning day of each is
    not after its acquisition day, and for [interval_days = 0] the count
    intersects the signup set of a day with the active set of the same
    day. *)
Theorem calculate_retention_nonpositive W interval_days t today :
  interval_days <= 0 ->
  same_day W t 14 today ->
  today - interval_days <= MAXORDINAL ->
  MINORDINAL + 13 <= today ->
  exists df,
    calculate_retention W interval_days t = Ok (df, (t + 14)%nat)
    /\ length (points df) = 14%nat
    /\ forall i, 1 <= i <= 14 ->
         let day := today - (i + interval_days - 1) in
         let next_day := day + interval_days in
         next_day <= day
         /\ exists p,
              points df !! Z.to_nat (14 - i) = Some p
              /\ cp_date p = strftime_ord day
              /\ cp_retention_count p =
                   len (active W (strftime_ord next_day) ∩ cohort W (strftime_ord day))
              /\ (interval_days = 0 ->
                    cp_retention_count p =
                      len (active W (cp_date p) ∩ cohort W (cp_date p))).
Proof.
  intros Hneg Hday Hmax Hmin.
  pose proof (same_day_valid W t today Hday) as Hvalid.
  assert (Hwin : window_ok interval_days today).
  { unfold window_ok, MINORDINAL, MAXORDINAL in *. lia. }
  eexists. split; [exact (calculate_retention_window W _ t today Hday Hwin)|].
  rewrite points_frame_of.
  split; [reflexivity|].
  intros i Hi day next_day. split; [subst next_day; lia|].
  exists (cohort_point W interval_days today i). split.
  - rewrite offsets_lookup by lia. f_equal. f_equal. lia.
  - split; [reflexivity|]. split; [reflexivity|].
    intros ->. unfold cohort_point. cbn [cp_date cp_retention_count].
    by rewrite Z.add_0_r.
Qed.

(** ** The query of [get_unique_user_ids] *)



(** ** The funnel *)

Lemma timedelta_ok d :
  Z.abs d <= 999999999 -> timedelta d = Ok {| days := d |}.
Proof. intros H. unfold timedelta. by apply Z.leb_le in H as ->. Qed.

Lemma dt_sub_ok dt d :
  MINORDINAL <= ordinal dt - d <= MAXORDINAL ->
  dt_sub dt {| days := d |}
  = Ok {| ordinal := ordinal dt - d; micros := micros dt |}.
Proof.
  intros [H1 H2]. unfold dt_sub. rewrite dt_add_ordinal. cbn [days].
  replace (ordinal dt + - d) with (ordinal dt - d) by lia.
  unfold in_range. apply Z.leb_le in H1 as ->. by apply Z.leb_le in H2 as ->.
Qed.


Lemma loop_points_length W interval_days l : forall t ps,
  loop_points W interval_days l t = Ok ps -> length ps = length l.
Proof.
  induction l as [|i l IH]; intros t ps; cbn [loop_points].
  - by intros [= <-].
  - destruct (step_ok _ _ _); [|discriminate].
    destruct (loop_points W interval_days l (S t)) as [ps'|e] eqn:E; [|discriminate].
    intros [= <-]. simpl. f_equal. by eapply IH.
Qed.

(** A frame returned by [calculate_retention] has 14 rows. *)
Lemma calculate_retention_frame W interval_days t df t' :
  calculate_retention W interval_days t = Ok (df, t') ->
  df = frame_of (points df) /\ length (points df) = 14%nat.
Proof.
  rewrite calculate_retention_points.
  destruct (loop_points _ _ _ _) as [ps|e] eqn:E; [|discriminate].
  intros [= <- <-]. rewrite points_frame_of. split; [reflexivity|].
  rewrite length_reverse. by apply loop_points_length in E.
Qed.

Lemma assign_aligned_take (n : nat) (series : list Z) :
  (n <= length series)%nat ->
  assign_aligned n series = Some <$> take n series.
Proof.
  intros Hn. unfold assign_aligned. apply list_eq. intros j.
  rewrite !list_lookup_fmap.
  destruct (decide (j < n)%nat) as [Hj|Hj].
  - rewrite lookup_seq_lt by done. rewrite lookup_take_lt by done. simpl.
    destruct (lookup_lt_is_Some_2 series j) as [c Hc]; [lia|]. by rewrite Hc.
  - rewrite lookup_seq_ge by lia. rewrite lookup_take_ge by lia. done.
Qed.

(** [calculate_funnel] once the histogram and the retention series are
    there. *)
Lemma calculate_funnel_frame W t response t1 retention t2 :
  search_funnel W t = Ok (response, t1) ->
  calculate_retention W 1 t1 = Ok (retention, t2) ->
  by_day response <> [] ->
  calculate_funnel W t =
  Ok ({| Funnel.date := to_datetime W <$> (key_as_string <$> by_day response);
         Funnel.all_visitor_count := userId_all <$> by_day response;
         Funnel.all_registered_count := userId_not_0 <$> by_day response;
         Funnel.all_sign_up_count := new_sign_up <$> by_day response;
         Funnel.retention_count :=
           assign_aligned (length (by_day response)) (retention_count retention) |},
      t2).
Proof.
  intros Hs Hr Hne. unfold calculate_funnel. rewrite Hs. cbn [bind].
  rewrite Hr. cbn [bind].
  destruct (by_day response) as [|b bs] eqn:E; [done|].
  rewrite <- E. rewrite length_fmap.
  destruct (funnel_dict_of <$> by_day response) eqn:E'.
  { rewrite E in E'. discriminate. }
  rewrite <- E'. rewrite <- !list_fmap_compose. reflexivity.
Qed.

Lemma funnel_row_lookup W response (column : list (option Z)) k bucket c :
  by_day response !! k = Some bucket ->
  column !! k = Some c ->
  Funnel.row
    {| Funnel.date := to_datetime W <$> (key_as_string <$> by_day response);
       Funnel.all_visitor_count := userId_all <$> by_day response;
       Funnel.all_registered_count := userId_not_0 <$> by_day response;
       Funnel.all_sign_up_count := new_sign_up <$> by_day response;
       Funnel.retention_count := column |} k
  = Some {| Funnel.r_date := to_datetime W (key_as_string bucket);
            Funnel.r_all_visitor_count := userId_all bucket;
            Funnel.r_all_registered_count := userId_not_0 bucket;
            Funnel.r_all_sign_up_count := new_sign_up bucket;
            Funnel.r_retention_count := c |}.
Proof.
  intros Hb Hc. unfold Funnel.row. cbn.
  rewrite !list_lookup_fmap, Hb, Hc. reflexivity.
Qed.

(** C4: when the histogram returns 14 records and [calculate_retention(1)]
    returns its series, [calculate_funnel] returns 14 rows, one per
    record and in their order; row [k] carries the date and the three
    counts of record [k] and, as [retention_count], that of point [k] of
    the series. *)
Theorem calculate_funnel_rows W t response t1 retention t2 :
  search_funnel W t = Ok (response, t1) ->
  length (by_day response) = 14%nat ->
  calculate_retention W 1 t1 = Ok (retention, t2) ->
  length (points retention) = 14%nat
  /\ exists df,
       calculate_funnel W t = Ok (df, t2)
       /\ Funnel.height df = 14%nat
       /\ forall k, (k < 14)%nat ->
            exists bucket p,
              by_day response !! k = Some bucket
              /\ points retention !! k = Some p
              /\ Funnel.row df k
                 = Some {| Funnel.r_date := to_datetime W (key_as_string bucket);
                           Funnel.r_all_visitor_count := userId_all bucket;
                           Funnel.r_all_registered_count := userId_not_0 bucket;
                           Funnel.r_all_sign_up_count := new_sign_up bucket;
                           Funnel.r_retention_count := Some (cp_retention_count p) |}.
Proof.
  intros Hs Hlen Hr.
  destruct (calculate_retention_frame W 1 t1 retention t2 Hr) as [Hframe Hps].
  split; [exact Hps|].
  eexists. split.
  { apply (calculate_funnel_frame W t response t1 retention t2 Hs Hr).
    intros E. by rewrite E in Hlen. }
  split; [unfold Funnel.height; cbn; by rewrite !length_fmap|].
  intros k Hk.
  destruct (lookup_lt_is_Some_2 (by_day response) k) as [bucket Hb]; [lia|].
  destruct (lookup_lt_is_Some_2 (points retention) k) as [p Hp]; [lia|].
  exists bucket, p. split; [exact Hb|]. split; [exact Hp|].
  apply funnel_row_lookup; [exact Hb|].
  rewrite Hlen, assign_aligned_take; cycle 1.
  { rewrite Hframe. cbn. rewrite length_fmap. lia. }
  rewrite list_lookup_fmap, lookup_take_lt by done.
  rewrite Hframe. cbn. by rewrite list_lookup_fmap, Hp.
Qed.

(** C9: the retention counts are joined by position.  When the histogram
    returns [N] buckets, 0 < N < 14, whatever their days,
    [calculate_funnel] returns [N] rows, and their [retention_count]s are
    the first [N] of the 14 counts of [calculate_retention(1)]. *)
Theorem calculate_funnel_short_histogram W t response t1 retention t2 N :
  search_funnel W t = Ok (response, t1) ->
  length (by_day response) = N ->
  (0 < N < 14)%nat ->
  calculate_retention W 1 t1 = Ok (retention, t2) ->
  length (retention_count retention) = 14%nat
  /\ exists df,
       calculate_funnel W t = Ok (df, t2)
       /\ Funnel.height df = N
       /\ Funnel.retention_count df = Some <$> take N (retention_count retention)
       /\ Funnel.date df = to_datetime W <$> (key_as_string <$> by_day response).
Proof.
  intros Hs Hlen HN Hr.
  destruct (calculate_retention_frame W 1 t1 retention t2 Hr) as [Hframe Hps].
  assert (Hcol : length (retention_count retention) = 14%nat).
  { rewrite Hframe. cbn. by rewrite length_fmap. }
  split; [exact Hcol|].
  eexists. split.
  { apply (calculate_funnel_frame W t response t1 retention t2 Hs Hr).
    intros E. rewrite E in Hlen. simpl in Hlen. lia. }
  split; [unfold Funnel.height; cbn; by rewrite !length_fmap|].
  split; [|reflexivity].
  cbn. rewrite Hlen. apply assign_aligned_take. lia.
Qed.

(** C8: [calculate_funnel] copies the three counts of every histogram
    record into the frame as they are, whatever their values: the columns
    are those of the records.  Nothing compares [all_registered_count]
    with [all_visitor_count]: a record with 7 registered visitors among 5
    visitors comes out as it went in. *)
Theorem calculate_funnel_passthrough :
  (forall W t response t1 retention t2,
     search_funnel W t = Ok (response, t1) ->
     by_day response <> [] ->
     calculate_retention W 1 t1 = Ok (retention, t2) ->
     exists df,
       calculate_funnel W t = Ok (df, t2)
       /\ Funnel.all_visitor_count df = userId_all <$> by_day response
       /\ Funnel.all_registered_count df = userId_not_0 <$> by_day response
       /\ Funnel.all_sign_up_count df = new_sign_up <$> by_day response)
  /\ exists df t',
       calculate_funnel (demo_world odd_hist) 0 = Ok (df, t')
       /\ Funnel.all_visitor_count df = [5]
       /\ Funnel.all_registered_count df = [7]
       /\ Funnel.all_sign_up_count df = [-1].
Proof.
  split.
  - intros W t response t1 retention t2 Hs Hne Hr.
    eexists. split.
    { exact (calculate_funnel_frame W t response t1 retention t2 Hs Hr Hne). }
    repeat split.
  - eexists _, _. split; [vm_compute; reflexivity|]. repeat split.
Qed.

(** ** The properties at work in the small world *)

(** Witness of C1: the run of [calculate_retention(1)] at noon on
    2026-11-03. *)
Lemma calculate_retention_series_witness :
  exists df,
    calculate_retention (demo_world demo_hist) 1 0 = Ok (df, 14%nat)
    /\ length (points df) = 14%nat
    /\ Date df = strftime_ord <$> seqZ 739909 14.
Proof.
  destruct (calculate_retention_series (demo_world demo_hist) 1 0 739923)
    as (df & Hrun & Hlen & Hdates & _).
  - lia.
  - intros j _. reflexivity.
  - vm_compute. discriminate.
  - exists df. repeat split; assumption.
Defined.

(** Counterexample to C1 as stated, on two inputs.  [interval_days =
    10000000] is positive, the day 10000000 days before 2026-11-03 is no
    date, and the run raises instead of returning 14 points.  And with
    [interval_days = 1], in a run that is started in the last second of
    2026-11-03 and reads the clock for the offsets 2 to 14 on the next
    day, the 14 points come out with the date 2026-11-02 twice: the dates
    are not strictly ascending, and the first is not
    [today - (interval_days + 13)], 2026-10-20. *)
Lemma calculate_retention_large_interval :
  (0 < 10000000
   /\ same_day (demo_world demo_hist) 0 14 739923
   /\ calculate_retention (demo_world demo_hist) 10000000 0 = Raise OverflowError
   /\ ~ (exists df t',
           calculate_retention (demo_world demo_hist) 10000000 0 = Ok (df, t')
           /\ length (points df) = 14%nat))
  /\ (0 < 1
      /\ ordinal (clock midnight_world 0) = 739923
      /\ MINORDINAL <= 739923 - (1 + 13)
      /\ exists df,
           calculate_retention midnight_world 1 0 = Ok (df, 14%nat)
           /\ Date df !! 0%nat = Some "2026-10-21"
           /\ Date df !! 12%nat = Some "2026-11-02"
           /\ Date df !! 13%nat = Some "2026-11-02"
           /\ ~ NoDup (Date df)).
Proof.
  split.
  - assert (H : calculate_retention (demo_world demo_hist) 10000000 0
                = Raise OverflowError) by (vm_compute; reflexivity).
    split; [lia|]. split; [intros j _; reflexivity|]. split; [exact H|].
    intros (df & t' & Hrun & _). rewrite H in Hrun. discriminate.
  - split; [lia|]. split; [reflexivity|]. split; [vm_compute; discriminate|].
    eexists. split; [vm_compute; reflexivity|].
    split; [reflexivity|]. split; [reflexivity|]. split; [reflexivity|].
    intros Hnodup.
    pose proof (NoDup_lookup _ 12%nat 13%nat _ Hnodup eq_refl eq_refl). lia.
Qed.

(** Witness of C2: the points of the run of [demo_retention_1]. *)
Lemma cohort_point_invariant_witness :
  Forall (fun p => 0 <= cp_retention_count p) (points demo_frame).
Proof.
  eapply Forall_impl.
  - apply (cohort_point_invariant (demo_world demo_hist) 1 0 demo_frame 14).
    vm_compute. reflexivity.
  - intros p (day & _ & _ & Hcount & _). lia.
Defined.



(** Witness of C4: fourteen histogram records. *)
Lemma calculate_funnel_rows_witness :
  exists df,
    calculate_funnel (demo_world demo_hist) 0 = Ok (df, 15%nat)
    /\ Funnel.height df = 14%nat.
Proof.
  destruct (calculate_funnel_rows (demo_world demo_hist) 0
              {| unique_userIds := []; by_day := demo_hist |} 1 demo_frame 15)
    as (_ & df & Hrun & Hheight & _).
  - vm_compute. reflexivity.
  - reflexivity.
  - vm_compute. reflexivity.
  - exists df. split; assumption.
Defined.

(** Witness of C5: two runs in a row. *)
Lemma calculate_retention_deterministic_witness :
  value_of (calculate_retention (demo_world demo_hist) 1 0)
  = value_of (calculate_retention (demo_world demo_hist) 1 14).
Proof.
  apply (calculate_retention_deterministic
           (demo_world demo_hist) (demo_world demo_hist) 1 0 14 739923).
  - intros j _. reflexivity.
  - intros j _. reflexivity.
  - reflexivity.
Defined.


(** Witness of C8: the histogram of fourteen days. *)
Lemma calculate_funnel_passthrough_witness :
  exists df,
    calculate_funnel (demo_world demo_hist) 0 = Ok (df, 15%nat)
    /\ Funnel.all_visitor_count df = userId_all <$> demo_hist.
Proof.
  destruct calculate_funnel_passthrough as [H _].
  destruct (H (demo_world demo_hist) 0%nat
              {| unique_userIds := []; by_day := demo_hist |} 1%nat demo_frame 15%nat)
    as (df & Hrun & Hv & _).
  - vm_compute. reflexivity.
  - discriminate.
  - vm_compute. reflexivity.
  - exists df. split; assumption.
Defined.

(** Witness of C9: a histogram of three days. *)
Lemma calculate_funnel_short_histogram_witness :
  exists df,
    calculate_funnel (demo_world (take 3 demo_hist)) 0 = Ok (df, 15%nat)
    /\ Funnel.height df = 3%nat
    /\ Funnel.retention_count df = [Some 0; Some 0; Some 0].
Proof.
  destruct (calculate_funnel_short_histogram (demo_world (take 3 demo_hist)) 0
              {| unique_userIds := []; by_day := take 3 demo_hist |} 1 demo_frame 15 3)
    as (_ & df & Hrun & Hheight & Hcol & _).
  - vm_compute. reflexivity.
  - reflexivity.
  - lia.
  - vm_compute. reflexivity.
  - exists df. repeat split; assumption.
Defined.

(** Witness of C10: [interval_days = 0] at noon on 2026-11-03. *)
Lemma calculate_retention_nonpositive_witness :
  exists df,
    calculate_retention (demo_world demo_hist) 0 0 = Ok (df, 14%nat)
    /\ length (points df) = 14%nat.
Proof.
  destruct (calculate_retention_nonpositive (demo_world demo_hist) 0 0 739923)
    as (df & Hrun & Hlen & _).
  - lia.
  - intros j _. reflexivity.
  - vm_compute. discriminate.
  - vm_compute. discriminate.
  - exists df. split; assumption.
Defined.

(** Counterexample to C10 as stated: [interval_days = -10000000] is
    negative, the day 10000000 days after 2026-11-03 is no date, and the
    run raises instead of returning 14 points. *)
Lemma calculate_retention_far_future :
  -10000000 <= 0
  /\ same_day (demo_world demo_hist) 0 14 739923
  /\ calculate_retention (demo_world demo_hist) (-10000000) 0 = Raise OverflowError
  /\ ~ (exists df t',
          calculate_retention (demo_world demo_hist) (-10000000) 0 = Ok (df, t')).
Proof.
  assert (H : calculate_retention (demo_world demo_hist) (-10000000) 0
              = Raise OverflowError) by (vm_compute; reflexivity).
  split; [lia|]. split; [intros j _; reflexivity|]. split; [exact H|].
  intros (df & t' & Hrun). rewrite H in Hrun. discriminate.
Qed.

(** * Further properties *)

(** ** When a run of [calculate_retention] raises *)



(** ** Which days a run compares *)

(** X2: whatever [interval_days] is, the returning day of offset [i] is
    [today - (i - 1)]: a run compares the cohorts with the active users of
    the last 14 days, today included.  The latest point counts the users
    who signed up [interval_days] days ago and are active today. *)
Theorem returning_days_fixed W interval_days t today :
  same_day W t 14 today ->
  window_ok interval_days today ->
  exists df,
    calculate_retention W interval_days t = Ok (df, (t + 14)%nat)
    /\ (forall i, 1 <= i <= 14 ->
          exists p,
            points df !! Z.to_nat (14 - i) = Some p
            /\ cp_retention_count p =
                 len (active W (strftime_ord (today - (i - 1)))
                      ∩ cohort W (strftime_ord (today - (i - 1) - interval_days))))
    /\ exists p,
         points df !! 13%nat = Some p
         /\ cp_date p = strftime_ord (today - interval_days)
         /\ cp_retention_count p =
              len (active W (strftime_ord today)
                   ∩ cohort W (strftime_ord (today - interval_days))).
Proof.
  intros Hday Hwin.
  eexists. split; [exact (calculate_retention_window W _ t today Hday Hwin)|].
  rewrite points_frame_of. split.
  - intros i Hi. exists (cohort_point W interval_days today i). split.
    + rewrite offsets_lookup by lia. do 2 f_equal. lia.
    + unfold cohort_point. cbn [cp_retention_count].
      replace (today - (i + interval_days - 1) + interval_days)
        with (today - (i - 1)) by lia.
      replace (today - (i + interval_days - 1))
        with (today - (i - 1) - interval_days) by lia.
      reflexivity.
  - exists (cohort_point W interval_days today 1). split; [reflexivity|].
    unfold cohort_point. cbn [cp_date cp_retention_count].
    replace (today - (1 + interval_days - 1) + interval_days) with today by lia.
    replace (today - (1 + interval_days - 1)) with (today - interval_days) by lia.
    split; reflexivity.
Qed.

(** ** A run across midnight *)

Lemma window_ok_step interval_days today i :
  window_ok interval_days today -> 1 <= i <= 14 ->
  step_ok interval_days today i = true.
Proof.
  unfold window_ok, step_ok, in_range, MINORDINAL, MAXORDINAL. intros Hwin Hi.
  rewrite !andb_true_iff, !Z.leb_le. lia.
Qed.

Lemma window_ok_offsets interval_days today a n :
  window_ok interval_days today -> 1 <= a -> a + n <= 15 ->
  forallb (step_ok interval_days today) (seqZ a n) = true.
Proof.
  intros Hwin Ha Hn. apply forallb_forall. intros i Hi.
  apply list_elem_of_In, elem_of_seqZ in Hi.
  apply window_ok_step; [exact Hwin | lia].
Qed.

Lemma loop_points_app W interval_days l1 l2 : forall t,
  loop_points W interval_days (l1 ++ l2) t =
  (ps1 <- loop_points W interval_days l1 t ;;
   ps2 <- loop_points W interval_days l2 (t + length l1) ;;
   Ok (ps1 ++ ps2)).
Proof.
  induction l1 as [|i l1 IH]; intros t; cbn [app loop_points length].
  - rewrite Nat.add_0_r. by destruct (loop_points _ _ l2 t).
  - destruct (step_ok _ _ _); [|done]. rewrite IH, Nat.add_succ_comm.
    destruct (loop_points W interval_days l1 (S t)); [|done]. cbn [bind].
    by destruct (loop_points W interval_days l2 _).
Qed.

(** X3: the clock is read once per offset.  When midnight passes after
    the reading of offset [j] (1 <= j <= 13), the offsets up to [j] count
    back from [today] and the later ones from the day after: the run still
    returns 14 points, but the offsets [j] and [j + 1] name the same
    acquisition day, [today - (j + interval_days - 1)], so one date
    stands twice in the [Date] column, side by side. *)
Theorem midnight_duplicates_day W interval_days t today (j : nat) :
  (1 <= j <= 13)%nat ->
  same_day W t j today ->
  same_day W (t + j) (14 - j) (today + 1) ->
  window_ok interval_days today ->
  window_ok interval_days (today + 1) ->
  exists df,
    calculate_retention W interval_days t = Ok (df, (t + 14)%nat)
    /\ length (Date df) = 14%nat
    /\ Date df !! (13 - j)%nat
       = Some (strftime_ord (today - (Z.of_nat j + interval_days - 1)))
    /\ Date df !! (14 - j)%nat
       = Some (strftime_ord (today - (Z.of_nat j + interval_days - 1)))
    /\ ~ NoDup (Date df).
Proof.
  intros Hj Hday1 Hday2 Hwin1 Hwin2.
  set (l1 := seqZ 1 (Z.of_nat j)). set (l2 := seqZ (1 + Z.of_nat j) (14 - Z.of_nat j)).
  assert (Hsplit : range 1 15 = l1 ++ l2).
  { unfold range, l1, l2. rewrite <- seqZ_app by lia. f_equal. lia. }
  assert (Hlen1 : length l1 = j) by (unfold l1; rewrite length_seqZ; lia).
  assert (Hlen2 : length l2 = (14 - j)%nat) by (unfold l2; rewrite length_seqZ; lia).
  set (ps1 := cohort_point W interval_days today <$> l1).
  set (ps2 := cohort_point W interval_days (today + 1) <$> l2).
  assert (Hloop : loop_points W interval_days (range 1 15) t = Ok (ps1 ++ ps2)).
  { rewrite Hsplit, loop_points_app.
    rewrite (loop_points_today W interval_days today l1 t) by (by rewrite Hlen1).
    unfold l1 at 1. rewrite window_ok_offsets by (done || lia). cbn [bind].
    rewrite Hlen1.
    rewrite (loop_points_today W interval_days (today + 1) l2 (t + j))
      by (by rewrite Hlen2).
    unfold l2 at 1. rewrite window_ok_offsets by (done || lia). reflexivity. }
  assert (Hps : length (ps1 ++ ps2) = 14%nat).
  { unfold ps1, ps2. rewrite length_app, !length_fmap. lia. }
  assert (Hat : forall k p, (k < 14)%nat ->
            (ps1 ++ ps2) !! (13 - k)%nat = Some p ->
            Date (frame_of (reverse (ps1 ++ ps2))) !! k = Some (cp_date p)).
  { intros k p Hk Hp. unfold frame_of. cbn [Date].
    rewrite list_lookup_fmap, reverse_lookup by lia.
    rewrite Hps. replace (14 - S k)%nat with (13 - k)%nat by lia.
    by rewrite Hp. }
  assert (H1 : Date (frame_of (reverse (ps1 ++ ps2))) !! (13 - j)%nat
               = Some (strftime_ord (today - (Z.of_nat j + interval_days - 1)))).
  { erewrite Hat; [| lia |].
    2:{ replace (13 - (13 - j))%nat with (length ps1 + 0)%nat
          by (unfold ps1; rewrite length_fmap; lia).
        rewrite lookup_app_r by lia.
        replace (length ps1 + 0 - length ps1)%nat with 0%nat by lia.
        unfold ps2, l2. rewrite list_lookup_fmap, lookup_seqZ_lt by lia.
        reflexivity. }
    unfold cohort_point. cbn [cp_date]. do 2 f_equal. lia. }
  assert (H2 : Date (frame_of (reverse (ps1 ++ ps2))) !! (14 - j)%nat
               = Some (strftime_ord (today - (Z.of_nat j + interval_days - 1)))).
  { erewrite Hat; [| lia |].
    2:{ rewrite lookup_app_l by (unfold ps1; rewrite length_fmap; lia).
        unfold ps1, l1. rewrite list_lookup_fmap, lookup_seqZ_lt by lia.
        reflexivity. }
    unfold cohort_point. cbn [cp_date]. do 2 f_equal. lia. }
  exists (frame_of (reverse (ps1 ++ ps2))).
  split; [by rewrite calculate_retention_points, Hloop|].
  split; [unfold frame_of; cbn [Date]; by rewrite length_fmap, length_reverse|].
  split; [exact H1|]. split; [exact H2|].
  intros Hnodup.
  pose proof (NoDup_lookup _ _ _ _ Hnodup H1 H2). lia.
Qed.

(** ** What the rate says *)

Lemma ratio_zero (a b : Z) :
  0 < b -> ((inject_Z a / inject_Z b == 0)%Q <-> a = 0).
Proof.
  intros Hb. unfold Qeq, Qdiv, Qmult, Qinv, inject_Z. simpl.
  destruct b as [|b|b]; try lia. simpl. lia.
Qed.

Lemma ratio_one (a b : Z) :
  0 < b -> ((inject_Z a / inject_Z b == 1)%Q <-> a = b).
Proof.
  intros Hb. unfold Qeq, Qdiv, Qmult, Qinv, inject_Z. simpl.
  destruct b as [|b|b]; try lia. simpl. lia.
Qed.

Lemma len_zero (s : gset Z) : len s = 0 <-> s = ∅.
Proof.
  unfold len. split.
  - intros H. apply leibniz_equiv, size_empty_iff. lia.
  - intros ->. reflexivity.
Qed.

Lemma len_intersection_full (a b : gset Z) :
  len (a ∩ b) = len b <-> b ⊆ a.
Proof.
  unfold len. split.
  - intros H. assert (Hsub : a ∩ b ⊆ b) by apply intersection_subseteq_r.
    assert (Heq : a ∩ b = b) by (apply set_subseteq_size_eq; [done | lia]).
    rewrite <- Heq. apply intersection_subseteq_l.
  - intros H. by rewrite (comm_L (∩)), (subseteq_intersection_1_L b a H).
Qed.

(** X4: in every frame [calculate_retention] returns, each rate lies
    between 0 and 1, also for an empty cohort, and is 0 exactly when the
    count is 0. *)
Theorem retention_rate_bounds W interval_days t df t' :
  calculate_retention W interval_days t = Ok (df, t') ->
  Forall (fun p =>
            (0 <= cp_retention_rate p <= 1)%Q
            /\ ((cp_retention_rate p == 0)%Q <-> cp_retention_count p = 0))
         (points df).
Proof.
  intros Hrun. apply calculate_retention_Forall in Hrun.
  eapply Forall_impl; [exact Hrun|].
  intros p (today & i & ->).
  pose proof (cohort_point_spec W interval_days today i) as H. cbn zeta in H.
  destruct H as (_ & Hc & Hle & Hpos & Hz).
  set (signed_up := cohort W (strftime_ord (today - (i + interval_days - 1)))) in *.
  destruct (decide (signed_up = ∅)) as [He|Hne].
  - destruct (Hz He) as [-> ->]. split; [split; discriminate | done].
  - assert (Hlen : 0 < len signed_up).
    { pose proof (len_nonneg signed_up). pose proof (len_zero signed_up).
      destruct (decide (len signed_up = 0)) as [E|E]; [tauto | lia]. }
    destruct (Hpos Hlen) as [-> Hb]. split; [exact Hb|].
    by apply ratio_zero.
Qed.

(** X5: in every frame [calculate_retention] returns, the rate of a point
    is 1 exactly when its cohort is not empty and every user of it is
    active on the returning day, and its count is 0 exactly when no user
    of the cohort is. *)
Theorem full_and_no_retention W interval_days t df t' :
  calculate_retention W interval_days t = Ok (df, t') ->
  Forall (fun p =>
    exists day : Z,
      let signed_up := cohort W (strftime_ord day) in
      let returning := active W (strftime_ord (day + interval_days)) in
      cp_date p = strftime_ord day
      /\ ((cp_retention_rate p == 1)%Q
          <-> signed_up <> ∅ /\ signed_up ⊆ returning)
      /\ (cp_retention_count p = 0 <-> signed_up ## returning)) (points df).
Proof.
  intros Hrun. apply calculate_retention_Forall in Hrun.
  eapply Forall_impl; [exact Hrun|].
  intros p (today & i & ->).
  exists (today - (i + interval_days - 1)). cbn zeta.
  pose proof (cohort_point_spec W interval_days today i) as H. cbn zeta in H.
  destruct H as (Hd & Hc & Hle & Hpos & Hz).
  set (signed_up := cohort W (strftime_ord (today - (i + interval_days - 1)))) in *.
  set (returning := active W (strftime_ord
                                (today - (i + interval_days - 1) + interval_days))) in *.
  split; [exact Hd|]. split.
  - destruct (decide (signed_up = ∅)) as [He|Hne].
    + destruct (Hz He) as [-> _]. split; [discriminate | tauto].
    + assert (Hlen : 0 < len signed_up).
      { pose proof (len_nonneg signed_up). pose proof (len_zero signed_up).
        destruct (decide (len signed_up = 0)) as [E|E]; [tauto | lia]. }
      destruct (Hpos Hlen) as [-> _]. rewrite ratio_one by exact Hlen.
      rewrite Hc, (comm_L (∩) signed_up returning), len_intersection_full. tauto.
  - rewrite Hc, len_zero. symmetry. apply disjoint_intersection_L.
Qed.

(** ** The buckets of a response *)

(** X6: the series depends on a response only through the set of the
    keys of its buckets.  Two runs on the same day against services
    whose responses carry the same keys, in whatever order, however often
    and with whatever [doc_count], have the same outcome. *)
Theorem calculate_retention_bucket_order W1 W2 interval_days t1 t2 today :
  same_day W1 t1 14 today ->
  same_day W2 t2 14 today ->
  (forall date message_name (id : Z),
     id ∈ key <$> unique_userIds
            (client_search W1 "monitor-prod-20*"
               (unique_user_ids_body date message_name))
     <-> id ∈ key <$> unique_userIds
              (client_search W2 "monitor-prod-20*"
                 (unique_user_ids_body date message_name))) ->
  value_of (calculate_retention W1 interval_days t1)
  = value_of (calculate_retention W2 interval_days t2).
Proof.
  intros H1 H2 Hkeys.
  assert (Hsets : forall date message_name,
            get_unique_user_ids W1 date message_name
            = get_unique_user_ids W2 date message_name).
  { intros date message_name. unfold get_unique_user_ids.
    apply set_eq. intros id. rewrite !elem_of_list_to_set. apply Hkeys. }
  rewrite (calculate_retention_today W1 interval_days t1 today H1).
  rewrite (calculate_retention_today W2 interval_days t2 today H2).
  destruct (forallb _ _); [|done]. cbn [value_of]. do 2 f_equal.
  apply list_fmap_ext. intros _ i _. by apply cohort_point_ext.
Qed.

(** ** The funnel and the series it joins *)

Lemma retention_dates W interval_days today :
  Date (frame_of (cohort_point W interval_days today <$> reverse (range 1 15)))
  = strftime_ord <$> seqZ (today - (interval_days + 13)) 14.
Proof.
  unfold frame_of, cohort_point. cbn [Date]. rewrite <- list_fmap_compose.
  change (cp_date ∘ _) with
    (strftime_ord ∘ (fun i => today - (i + interval_days - 1))).
  rewrite list_fmap_compose. apply offsets_dates.
Qed.

Lemma assign_aligned_lookup (n : nat) (series : list Z) (k : nat) :
  (k < n)%nat -> assign_aligned n series !! k = Some (series !! k).
Proof.
  intros Hk. unfold assign_aligned.
  by rewrite list_lookup_fmap, lookup_seq_lt.
Qed.

Lemma search_funnel_ticks W t response t1 :
  search_funnel W t = Ok (response, t1) -> t1 = S t.
Proof.
  unfold search_funnel. destruct (funnel_request _); [|discriminate].
  cbn [bind]. by intros [= _ <-].
Qed.

(** X7: an empty histogram stops [calculate_funnel].  When the service
    returns no bucket, the frame has no [date] column and, the retention
    series once computed, [df.date] raises [AttributeError]; no frame is
    returned. *)
Theorem calculate_funnel_empty_histogram W t response t1 :
  search_funnel W t = Ok (response, t1) ->
  by_day response = [] ->
  (forall retention t2,
     calculate_retention W 1 t1 = Ok (retention, t2) ->
     calculate_funnel W t = Raise AttributeError)
  /\ (forall e,
        calculate_retention W 1 t1 = Raise e -> calculate_funnel W t = Raise e)
  /\ forall df t2, calculate_funnel W t <> Ok (df, t2).
Proof.
  intros Hs Hempty. unfold calculate_funnel. rewrite Hs. cbn [bind].
  rewrite Hempty. cbn [fmap list_fmap].
  destruct (calculate_retention W 1 t1) as [[retention t2]|e]; cbn [bind].
  - split; [done|]. split; [discriminate|]. discriminate.
  - split; [discriminate|]. split; [by intros e' [= <-]|]. discriminate.
Qed.

(** X8: the join is by row number for a histogram of any length.  Row
    [k] of the frame receives count [k] of the series of
    [calculate_retention(1)]; the series has 14 counts, so in a histogram
    of more than 14 buckets the rows from the fifteenth on are left
    without a [retention_count] (NaN), and nothing is raised. *)
Theorem calculate_funnel_join_by_position W t response t1 retention t2 :
  search_funnel W t = Ok (response, t1) ->
  by_day response <> [] ->
  calculate_retention W 1 t1 = Ok (retention, t2) ->
  exists df,
    calculate_funnel W t = Ok (df, t2)
    /\ Funnel.height df = length (by_day response)
    /\ length (Funnel.retention_count df) = length (by_day response)
    /\ (forall k c,
          retention_count retention !! k = Some c ->
          (k < length (by_day response))%nat ->
          Funnel.retention_count df !! k = Some (Some c))
    /\ (forall k,
          (14 <= k < length (by_day response))%nat ->
          Funnel.retention_count df !! k = Some None).
Proof.
  intros Hs Hne Hr.
  destruct (calculate_retention_frame W 1 t1 retention t2 Hr) as [Hframe Hps].
  assert (Hcol : length (retention_count retention) = 14%nat).
  { rewrite Hframe. cbn. by rewrite length_fmap. }
  eexists. split.
  { exact (calculate_funnel_frame W t response t1 retention t2 Hs Hr Hne). }
  split; [unfold Funnel.height; cbn; by rewrite !length_fmap|].
  cbn [Funnel.retention_count]. split.
  { unfold assign_aligned. by rewrite length_fmap, length_seq. }
  split.
  - intros k c Hc Hk. rewrite assign_aligned_lookup by exact Hk. by rewrite Hc.
  - intros k Hk. rewrite assign_aligned_lookup by lia.
    by rewrite lookup_ge_None_2 by lia.
Qed.

(** X9: the window of the histogram and the days of the joined series
    agree when the 15 clock readings of [calculate_funnel] fall on one
    day.  The request ranges from day [today - 14] to day [today - 1]; the
    [Date] column of [calculate_retention(1)] reads back as these 14 days
    in order; and row [k] of the funnel receives the count of the cohort
    of day [today - 14 + k], measured on the day after. *)
Theorem funnel_window_aligned W t today response :
  same_day W t 15 today ->
  MINORDINAL + 14 <= today ->
  search_funnel W t = Ok (response, S t) ->
  by_day response <> [] ->
  exists start_date end_date retention df,
    funnel_request (clock W t) = Ok (search_funnel_query start_date end_date)
    /\ ordinal start_date = today - 14
    /\ ordinal end_date = today - 1
    /\ calculate_retention W 1 (S t) = Ok (retention, (t + 15)%nat)
    /\ ordinal_of_string <$> Date retention
       = seqZ (ordinal start_date) (ordinal end_date - ordinal start_date + 1)
    /\ calculate_funnel W t = Ok (df, (t + 15)%nat)
    /\ forall k : nat,
         (k < length (by_day response))%nat -> (k < 14)%nat ->
         let day := ordinal start_date + Z.of_nat k in
         Funnel.retention_count df !! k
         = Some (Some (len (active W (strftime_ord (day + 1))
                            ∩ cohort W (strftime_ord day)))).
Proof.
  intros Hday Hmin Hs Hne.
  assert (Hnow : ordinal (clock W t) = today).
  { rewrite <- (Hday 0%nat) by lia. by rewrite Nat.add_0_r. }
  assert (Hday' : same_day W (S t) 14 today).
  { intros j Hj. replace (S t + j)%nat with (t + S j)%nat by lia.
    apply Hday. lia. }
  pose proof (same_day_valid W (S t) today Hday') as Hvalid.
  assert (Hwin : window_ok 1 today).
  { unfold window_ok, MINORDINAL, MAXORDINAL in *. lia. }
  pose proof (calculate_retention_window W 1 (S t) today Hday' Hwin) as Hr.
  replace (S t + 14)%nat with (t + 15)%nat in Hr by lia.
  exists {| ordinal := ordinal (clock W t) - 1 - 13; micros := micros (clock W t) |},
         {| ordinal := ordinal (clock W t) - 1; micros := micros (clock W t) |}.
  eexists _, _.
  split.
  { unfold funnel_request.
    rewrite (timedelta_ok 1) by (simpl; lia). cbn [bind].
    rewrite (dt_sub_ok (clock W t) 1)
      by (rewrite Hnow; unfold MINORDINAL, MAXORDINAL in *; lia).
    cbn [bind]. rewrite (timedelta_ok (14 - 1)) by (simpl; lia). cbn [bind].
    rewrite dt_sub_ok
      by (cbn [ordinal]; rewrite Hnow; unfold MINORDINAL, MAXORDINAL in *; lia).
    reflexivity. }
  cbn [ordinal]. rewrite Hnow.
  split; [lia|]. split; [reflexivity|]. split; [exact Hr|].
  pose proof (retention_dates W 1 today) as Hdates.
  change (today - (1 + 13)) with (today - 14) in Hdates.
  split.
  { rewrite Hdates. replace (today - 1 - (today - 1 - 13) + 1) with 14 by lia.
    replace (today - 1 - 13) with (today - 14) by lia.
    apply ordinal_of_strftime_seqZ; unfold MINORDINAL, MAXORDINAL in *; lia. }
  split.
  { exact (calculate_funnel_frame W t response (S t) _ _ Hs Hr Hne). }
  intros k Hk Hk14. cbn [Funnel.retention_count].
  rewrite assign_aligned_lookup by exact Hk.
  unfold frame_of. cbn [retention_count].
  rewrite list_lookup_fmap, offsets_lookup by exact Hk14.
  unfold cohort_point. cbn [fmap option_fmap option_map cp_retention_count].
  replace (today - (14 - Z.of_nat k + 1 - 1)) with (today - 1 - 13 + Z.of_nat k) by lia.
  reflexivity.
Qed.

(** ** Requests *)

Lemma length_append (s1 s2 : string) :
  String.length (s1 +:+ s2) = (String.length s1 + String.length s2)%nat.
Proof. induction s1 as [|c s1 IH]; simpl; [done | by rewrite IH]. Qed.

Lemma append_inj_l (s1 s2 suffix : string) :
  s1 +:+ suffix = s2 +:+ suffix -> s1 = s2.
Proof.
  revert s2. induction s1 as [|c s1 IH]; intros [|c' s2] H; simpl in H.
  - reflexivity.
  - apply (f_equal String.length) in H. rewrite !length_append in H.
    simpl in H. lia.
  - apply (f_equal String.length) in H. rewrite !length_append in H.
    simpl in H. lia.
  - cbn [String.append] in H. injection H as -> H. f_equal. by apply IH.
Qed.

(** X10: a request of [get_unique_user_ids] determines the day and the
    event it asks for.  The requests for two dates and event names are the
    same document only when the dates are the same day and the names are
    equal: [strftime] writes different days differently, so the sets of
    two days, or of two events, are never answers to one request. *)
Theorem request_determines_day_and_event o1 o2 name1 name2 :
  MINORDINAL <= o1 <= MAXORDINAL ->
  MINORDINAL <= o2 <= MAXORDINAL ->
  unique_user_ids_body (strftime_ord o1) name1
  = unique_user_ids_body (strftime_ord o2) name2 ->
  o1 = o2 /\ name1 = name2.
Proof.
  intros H1 H2 Hbody. unfold unique_user_ids_body in Hbody.
  injection Hbody as Hgte _ Hname. split; [|exact Hname].
  apply append_inj_l in Hgte.
  rewrite <- (ordinal_of_strftime o1 H1), <- (ordinal_of_strftime o2 H2).
  by rewrite Hgte.
Qed.

(** ** The page *)

Lemma interval_options_map interval_option :
  interval_option ∈ interval_options ->
  exists interval_days,
    interval_days_map !! interval_option = Some interval_days
    /\ interval_days ∈ [1; 3; 7; 15; 30].
Proof.
  unfold interval_options. intros H.
  repeat (apply elem_of_cons in H as [->|H]);
    [ exists 1 | exists 3 | exists 7 | exists 15 | exists 30 | by apply elem_of_nil in H ];
    (split; [vm_compute; reflexivity | set_solver]).
Qed.

Lemma page_run W t today response interval_option interval_days :
  interval_days_map !! interval_option = Some interval_days ->
  1 <= interval_days <= 30 ->
  same_day W t 29 today ->
  MINORDINAL + 43 <= today ->
  search_funnel W t = Ok (response, S t) ->
  (by_day response <> [] ->
   exists funnel retention,
     page W interval_option t = PageOk funnel retention (t + 29)%nat
     /\ Funnel.height funnel = length (by_day response)
     /\ length (points retention) = 14%nat
     /\ ordinal_of_string <$> Date retention
        = seqZ (today - (interval_days + 13)) 14)
  /\ (by_day response = [] -> page W interval_option t = PageRaise AttributeError).
Proof.
  intros Hmap Hk Hday Hmin Hs.
  assert (Hday1 : same_day W (S t) 14 today).
  { intros j Hj. replace (S t + j)%nat with (t + S j)%nat by lia. apply Hday. lia. }
  assert (Hday2 : same_day W (t + 15) 14 today).
  { intros j Hj. replace (t + 15 + j)%nat with (t + (15 + j))%nat by lia.
    apply Hday. lia. }
  pose proof (same_day_valid W (S t) today Hday1) as Hvalid.
  assert (Hwin1 : window_ok 1 today).
  { unfold window_ok, MINORDINAL, MAXORDINAL in *. lia. }
  assert (Hwin2 : window_ok interval_days today).
  { unfold window_ok, MINORDINAL, MAXORDINAL in *. lia. }
  pose proof (calculate_retention_window W 1 (S t) today Hday1 Hwin1) as Hr1.
  replace (S t + 14)%nat with (t + 15)%nat in Hr1 by lia.
  pose proof (calculate_retention_window W interval_days (t + 15) today Hday2 Hwin2)
    as Hr2.
  replace (t + 15 + 14)%nat with (t + 29)%nat in Hr2 by lia.
  split.
  - intros Hne. unfold page.
    rewrite (calculate_funnel_frame W t response (S t) _ _ Hs Hr1 Hne).
    rewrite Hmap, Hr2. eexists _, _. split; [reflexivity|].
    split; [unfold Funnel.height; cbn; by rewrite !length_fmap|].
    rewrite points_frame_of. split; [reflexivity|].
    rewrite retention_dates.
    apply ordinal_of_strftime_seqZ; unfold MINORDINAL, MAXORDINAL in *; lia.
  - intros Hempty. unfold page, calculate_funnel. rewrite Hs. cbn [bind].
    rewrite Hr1. cbn [bind]. by rewrite Hempty.
Qed.

(** X11: every option of the selector has its number of days in
    [interval_days_map], one of 1, 3, 7, 15 and 30, so the lookup raises
    no [KeyError].  On a day from 0001-02-13 on, with its 29 clock
    readings on that day, the page then ends in one of two ways: when the
    histogram has a bucket, with the funnel, one row per bucket, and the
    series of the chosen interval, 14 points whose dates read back as the
    days [today - (interval_days + 13) .. today - interval_days]; when the
    histogram is empty, with [AttributeError], before the selector is
    read. *)
Theorem page_presets W t today response interval_option :
  interval_option ∈ interval_options ->
  same_day W t 29 today ->
  MINORDINAL + 43 <= today ->
  search_funnel W t = Ok (response, S t) ->
  exists interval_days,
    interval_days_map !! interval_option = Some interval_days
    /\ interval_days ∈ [1; 3; 7; 15; 30]
    /\ (by_day response <> [] ->
        exists funnel retention,
          page W interval_option t = PageOk funnel retention (t + 29)%nat
          /\ Funnel.height funnel = length (by_day response)
          /\ length (points retention) = 14%nat
          /\ ordinal_of_string <$> Date retention
             = seqZ (today - (interval_days + 13)) 14)
    /\ (by_day response = [] ->
        page W interval_option t = PageRaise AttributeError).
Proof.
  intros Hopt Hday Hmin Hs.
  destruct (interval_options_map interval_option Hopt) as (k & Hmap & Hk).
  exists k. split; [exact Hmap|]. split; [exact Hk|].
  apply (page_run W t today response interval_option k Hmap); try assumption.
  repeat (apply elem_of_cons in Hk as [->|Hk]); try lia. by apply elem_of_nil in Hk.
Qed.

(** ** The further properties at work in the small world *)

Lemma demo_window_ok : window_ok 1 739923.
Proof. unfold window_ok, MINORDINAL, MAXORDINAL. lia. Qed.


(** Witness of X2: the cohort of 2026-11-02 is compared with the users
    active on 2026-11-03, the day of the run. *)
Lemma returning_days_fixed_witness :
  exists df p,
    calculate_retention (demo_world demo_hist) 1 0 = Ok (df, 14%nat)
    /\ points df !! 13%nat = Some p
    /\ cp_date p = "2026-11-02"
    /\ cp_retention_count p =
         len (active (demo_world demo_hist) "2026-11-03"
              ∩ cohort (demo_world demo_hist) "2026-11-02").
Proof.
  destruct (returning_days_fixed (demo_world demo_hist) 1 0 739923)
    as (df & Hrun & _ & p & Hp & Hd & Hc).
  - intros j _. reflexivity.
  - unfold window_ok, MINORDINAL, MAXORDINAL. lia.
  - exists df, p. repeat split; assumption.
Defined.

(** Witness of X3: the run of [midnight_run]. *)
Lemma midnight_duplicates_day_witness :
  exists df,
    calculate_retention midnight_world 1 0 = Ok (df, 14%nat)
    /\ Date df !! 12%nat = Some "2026-11-02"
    /\ Date df !! 13%nat = Some "2026-11-02".
Proof.
  destruct (midnight_duplicates_day midnight_world 1 0 739923 1)
    as (df & Hrun & _ & H12 & H13 & _).
  - lia.
  - intros j Hj. destruct j; [reflexivity | lia].
  - intros j _. reflexivity.
  - unfold window_ok, MINORDINAL, MAXORDINAL. lia.
  - unfold window_ok, MINORDINAL, MAXORDINAL. lia.
  - exists df. repeat split; assumption.
Defined.

(** Witness of X4. *)
Lemma retention_rate_bounds_witness :
  Forall (fun p => (0 <= cp_retention_rate p <= 1)%Q) (points demo_frame).
Proof.
  eapply Forall_impl.
  - apply (retention_rate_bounds (demo_world demo_hist) 1 0 demo_frame 14).
    vm_compute. reflexivity.
  - intros p [H _]. exact H.
Defined.

(** Witness of X5. *)
Lemma full_and_no_retention_witness :
  Forall (fun p => exists day : Z, cp_date p = strftime_ord day) (points demo_frame).
Proof.
  eapply Forall_impl.
  - apply (full_and_no_retention (demo_world demo_hist) 1 0 demo_frame 14).
    vm_compute. reflexivity.
  - intros p (day & H & _). exists day. exact H.
Defined.

(** Witness of X6: the small world and its shuffled copy. *)
Lemma calculate_retention_bucket_order_witness :
  value_of (calculate_retention (demo_world demo_hist) 1 0)
  = value_of (calculate_retention (shuffled_world demo_hist) 1 0).
Proof.
  apply (calculate_retention_bucket_order
           (demo_world demo_hist) (shuffled_world demo_hist) 1 0 0 739923).
  - intros j _. reflexivity.
  - intros j _. reflexivity.
  - intros date message_name id.
    cbn [client_search shuffled_world demo_world shuffled_search unique_userIds].
    rewrite <- list_fmap_compose, fmap_app, fmap_reverse, elem_of_app, elem_of_reverse.
    change (key ∘ _) with key. tauto.
Defined.

(** Witness of X7: no bucket at all. *)
Lemma calculate_funnel_empty_histogram_witness :
  calculate_funnel (demo_world []) 0 = Raise AttributeError.
Proof.
  destruct (calculate_funnel_empty_histogram (demo_world []) 0
              {| unique_userIds := []; by_day := [] |} 1) as (H & _).
  - vm_compute. reflexivity.
  - reflexivity.
  - apply (H demo_frame 15%nat). vm_compute. reflexivity.
Defined.

(** Witness of X8: sixteen buckets. *)
Lemma calculate_funnel_join_by_position_witness :
  exists df,
    calculate_funnel (demo_world long_hist) 0 = Ok (df, 15%nat)
    /\ Funnel.height df = 16%nat
    /\ Funnel.retention_count df !! 12%nat = Some (Some 2)
    /\ Funnel.retention_count df !! 15%nat = Some None.
Proof.
  destruct (calculate_funnel_join_by_position (demo_world long_hist) 0
              {| unique_userIds := []; by_day := long_hist |} 1 demo_frame 15)
    as (df & Hrun & Hheight & _ & Hcount & Hnan).
  - vm_compute. reflexivity.
  - discriminate.
  - vm_compute. reflexivity.
  - exists df. split; [exact Hrun|]. split; [exact Hheight|]. split.
    + apply Hcount; [reflexivity | vm_compute; lia].
    + apply Hnan. vm_compute. lia.
Defined.

(** Witness of X9. *)
Lemma funnel_window_aligned_witness :
  exists start_date end_date,
    funnel_request noon_2026_11_03 = Ok (search_funnel_query start_date end_date)
    /\ ordinal start_date = 739909
    /\ ordinal end_date = 739922.
Proof.
  destruct (funnel_window_aligned (demo_world demo_hist) 0 739923
              {| unique_userIds := []; by_day := demo_hist |})
    as (start_date & end_date & _ & _ & Hreq & Hs & He & _).
  - intros j _. reflexivity.
  - vm_compute. discriminate.
  - vm_compute. reflexivity.
  - discriminate.
  - exists start_date, end_date. repeat split; assumption.
Defined.

(** Witness of X10. *)
Lemma request_determines_day_and_event_witness :
  739923 = 739923 /\ "root" = "root".
Proof.
  apply (request_determines_day_and_event 739923 739923 "root" "root").
  - vm_compute. split; discriminate.
  - vm_compute. split; discriminate.
  - reflexivity.
Defined.

(** Witness of X11: the 30-day option at noon on 2026-11-03. *)
Lemma page_presets_witness :
  exists funnel retention,
    page (demo_world demo_hist) "30日留存" 0 = PageOk funnel retention 29
    /\ length (points retention) = 14%nat.
Proof.
  destruct (page_presets (demo_world demo_hist) 0 739923
              {| unique_userIds := []; by_day := demo_hist |} "30日留存")
    as (k & _ & _ & Hok & _).
  - unfold interval_options. do 4 apply list_elem_of_further. apply list_elem_of_here.
  - intros j _. reflexivity.
  - vm_compute. discriminate.
  - vm_compute. reflexivity.
  - destruct Hok as (funnel & retention & Hpage & _ & Hlen & _); [discriminate|].
    exists funnel, retention. split; assumption.
Defined.
